(** * Offline cache worker ([sw.js]) of the attendance application

    A shallow embedding of the service worker's cache handling: the three
    request strategies ([cacheFirst], [networkFirst],
    [staleWhileRevalidate]), the fetch dispatcher, the [activate] handler,
    [cacheAttendanceData], [getCacheStatus], the message and notification
    handlers and [performCleanup], followed by the properties the
    specification states about them and further ones.

    The browser is modelled as far as the worker observes it:
    - Cache Storage is an ordered list of named stores ([caches.keys()] and
      [caches.match] go through the stores in creation order).  A store
      matches a request by its URL without the fragment ([cache_key]), so
      one store is a finite map from that key to the stored response.  The
      requests of one URL are taken to agree on the headers a stored
      response varies on, so that the [Vary] header decides nothing but the
      refusal of [Vary: *]; the strategies are reached from the fetch
      listener only, after its test of the method, so the requests they
      look up and store are GET requests;
    - [cache.put] refuses, with a [TypeError], a request whose scheme is not
      http(s), a response of status 206 and a response with [Vary: *]
      ([put_refused]); the other calls on Cache Storage do not fail, and
      the storage quota is not modelled;
    - [fetch], the clock, date parsing and the worker's location are fields
      of a [Host] record;
    - an [async] function is a computation over the Cache Storage that
      completes normally or throws; [try]/[catch] is [try_catch].  A promise
      that is not awaited ([cache.put] in the strategies, the network promise
      of [staleWhileRevalidate]) is run to its end: the storage a
      computation ends in is the one after its background work, and a
      rejection of such a promise reaches no handler of the worker
      ([unawaited]). *)

From Stdlib Require Import ZArith Ascii.
From stdpp Require Import gmap strings list fin_maps.

Local Open Scope string_scope.
Local Open Scope Z_scope.
Local Open Scope list_scope.

(** ** Responses and requests *)

(** The JSON values the worker itself builds are flat objects of strings and
    booleans. *)
Inductive JsonValue : Type :=
  | JBool (b : bool)
  | JString (s : string).

(** A response body is either a payload the worker never inspects, or the
    text [JSON.stringify] produced from an object literal of the worker, or
    none at all ([new Response(undefined)]). *)
Inductive Body : Type :=
  | Payload (text : string)
  | JsonObject (fields : list (string * JsonValue))
  | NoBody.

(** [headers] keeps the header names lower-cased, as a [Headers] object does. *)
Record Response : Type := mkResponse {
  status : Z;
  statusText : string;
  headers : list (string * string);
  body : Body
}.

(** [response.ok]: the status is in the range 200-299. *)
Definition ok (r : Response) : bool :=
  (200 <=? status r) && (status r <=? 299).

(** [response.headers.get(name)]; [None] is JavaScript's [null]. *)
Fixpoint headers_get (name : string) (hs : list (string * string)) : option string :=
  match hs with
  | [] => None
  | (n, v) :: rest => if String.eqb n name then Some v else headers_get name rest
  end.

(** A request as the worker reads it: [url_origin] and [url_pathname] are the
    [origin] and [pathname] of [new URL(request.url)]. *)
Record Request : Type := mkRequest {
  url : string;
  url_origin : string;
  url_pathname : string;
  method : string;
  mode : string
}.

(** ** What a store matches and accepts *)

(** The URL up to its fragment. *)
Fixpoint strip_fragment (s : string) : string :=
  match s with
  | EmptyString => EmptyString
  | String c rest =>
      if Ascii.eqb c "#" then EmptyString else String c (strip_fragment rest)
  end.

(** The key a store files a request under: a store compares request URLs
    with the fragment left out. *)
Definition cache_key (request : Request) : string :=
  strip_fragment (url request).

Definition http_scheme (url : string) : bool :=
  String.prefix "http://" url || String.prefix "https://" url.

(** The members of a comma-separated header value, as they are written. *)
Fixpoint split_commas (s : string) : list string :=
  match s with
  | EmptyString => [EmptyString]
  | String c rest =>
      if Ascii.eqb c "," then EmptyString :: split_commas rest
      else match split_commas rest with
           | [] => [String c EmptyString]
           | member :: members => String c member :: members
           end
  end.

Definition is_blank (c : ascii) : bool :=
  Ascii.eqb c " " || Ascii.eqb c "009".

Fixpoint trim_left (s : string) : string :=
  match s with
  | EmptyString => EmptyString
  | String c rest => if is_blank c then trim_left rest else s
  end.

Fixpoint trim_right (s : string) : string :=
  match s with
  | EmptyString => EmptyString
  | String c rest =>
      match trim_right rest with
      | EmptyString => if is_blank c then EmptyString else String c EmptyString
      | kept => String c kept
      end
  end.

(** The response has a [Vary] header with the member [*]. *)
Definition varies_on_everything (r : Response) : bool :=
  match headers_get "vary" (headers r) with
  | Some value =>
      existsb (fun member => String.eqb (trim_right (trim_left member)) "*")
        (split_commas value)
  | None => false
  end.

(** [cache.put(request, response)] rejects with a [TypeError]: the scheme of
    the request is not http(s), the status is 206, or the response varies
    on everything. *)
Definition put_refused (key : string) (r : Response) : bool :=
  negb (http_scheme key) || (status r =? 206) || varies_on_everything r.

(** ** Cache Storage *)

Abbreviation Cache := (gmap string Response).
Abbreviation CacheStorage := (list (string * gmap string Response)).

Definition CACHE_NAME : string := "attendance-system-v2.0.0".
Definition STATIC_CACHE : string := "attendance-static-v2.0.0".
Definition DYNAMIC_CACHE : string := "attendance-dynamic-v2.0.0".

Definition CORE_FILES : list string :=
  [ "./";
    "./index.html";
    "./manifest.json";
    "https://cdnjs.cloudflare.com/ajax/libs/jspdf/2.5.1/jspdf.umd.min.js";
    "https://cdnjs.cloudflare.com/ajax/libs/jspdf-autotable/3.5.31/jspdf.plugin.autotable.min.js" ].

Definition FALLBACK_FILES : list string := [ "./index.html" ].

(** The store registered under [name], if any. *)
Fixpoint store_named (name : string) (cs : CacheStorage) : option Cache :=
  match cs with
  | [] => None
  | (n, c) :: rest => if String.eqb n name then Some c else store_named name rest
  end.

(** What the store [name] holds; a store that does not exist holds nothing. *)
Definition contents (name : string) (cs : CacheStorage) : Cache :=
  default ∅ (store_named name cs).

(** [f] applied to the store registered under [name]. *)
Fixpoint store_update (name : string) (f : Cache -> Cache) (cs : CacheStorage)
  : CacheStorage :=
  match cs with
  | [] => []
  | (n, c) :: rest =>
      if String.eqb n name then (n, f c) :: rest
      else (n, c) :: store_update name f rest
  end.

(** [caches.open(name)]: the store is created, empty and last, when absent. *)
Definition storage_open (name : string) (cs : CacheStorage) : CacheStorage :=
  match store_named name cs with
  | Some _ => cs
  | None => cs ++ [(name, ∅)]
  end.

(** [caches.delete(name)]. *)
Definition storage_delete (name : string) (cs : CacheStorage) : CacheStorage :=
  filter (fun entry => entry.1 ≠ name) cs.

(** [caches.match(key)]: the first store, in creation order, that holds [key]. *)
Fixpoint storage_match (key : string) (cs : CacheStorage) : option Response :=
  match cs with
  | [] => None
  | (_, c) :: rest =>
      match c !! key with
      | Some r => Some r
      | None => storage_match key rest
      end
  end.

(** [caches.keys()]. *)
Definition storage_keys (cs : CacheStorage) : list string := cs.*1.

(** [cache.keys()] of one store, as URLs. *)
Definition store_keys (c : Cache) : list string := (map_to_list c).*1.

(** ** Asynchronous computations *)

Inductive JsError : Type :=
  | NetworkError   (* a rejected [fetch] *)
  | TypeError.     (* a property read on [undefined] *)

Inductive Completion (A : Type) : Type :=
  | Normal (a : A)
  | Thrown (e : JsError).
Arguments Normal {A} a.
Arguments Thrown {A} e.

Definition Async (A : Type) : Type := CacheStorage -> Completion A * CacheStorage.

Definition ret {A} (a : A) : Async A := fun cs => (Normal a, cs).

Definition throw {A} (e : JsError) : Async A := fun cs => (Thrown e, cs).

Definition bind {A B} (m : Async A) (k : A -> Async B) : Async B :=
  fun cs =>
    match m cs with
    | (Normal a, cs') => k a cs'
    | (Thrown e, cs') => (Thrown e, cs')
    end.

Definition try_catch {A} (m : Async A) (handler : JsError -> Async A) : Async A :=
  fun cs =>
    match m cs with
    | (Normal a, cs') => (Normal a, cs')
    | (Thrown e, cs') => handler e cs'
    end.

Notation "'await' x <- m ; k" := (bind m (fun x => k))
  (at level 10, x name, m at level 100, k at level 200,
   format "'[v' 'await'  x  <-  m ; '/' k ']'").
Notation "'run' m ; k" := (bind m (fun _ => k))
  (at level 10, m at level 100, k at level 200,
   format "'[v' 'run'  m ; '/' k ']'").

(** [for (const x of xs) { await body(x) }] *)
Fixpoint for_of {A} (xs : list A) (body : A -> Async unit) : Async unit :=
  match xs with
  | [] => ret tt
  | x :: rest => run body x; for_of rest body
  end.

(** The Cache Storage calls, as computations.  A cache object obtained from
    [caches.open(name)] is represented by its [name]. *)
Definition caches_open (name : string) : Async string :=
  fun cs => (Normal name, storage_open name cs).

Definition caches_match (key : string) : Async (option Response) :=
  fun cs => (Normal (storage_match key cs), cs).

Definition caches_keys : Async (list string) :=
  fun cs => (Normal (storage_keys cs), cs).

Definition caches_delete (name : string) : Async unit :=
  fun cs => (Normal tt, storage_delete name cs).

Definition cache_match (cache : string) (key : string) : Async (option Response) :=
  fun cs => (Normal (contents cache cs !! key), cs).

Definition cache_put (cache : string) (key : string) (r : Response) : Async unit :=
  fun cs =>
    if put_refused key r then (Thrown TypeError, cs)
    else (Normal tt, store_update cache (insert key r) cs).

(** A call whose promise is dropped: what it does to the storage is done,
    and its rejection, if any, reaches no handler of the caller. *)
Definition unawaited {A} (m : Async A) : Async unit :=
  fun cs => (Normal tt, (m cs).2).

Definition cache_delete (cache : string) (key : string) : Async unit :=
  fun cs => (Normal tt, store_update cache (delete key) cs).

Definition cache_keys (cache : string) : Async (list string) :=
  fun cs => (Normal (store_keys (contents cache cs)), cs).

(** ** The host *)

(** What the worker asks of the browser besides Cache Storage. *)
Record Host : Type := mkHost {
  (** [fetch(request)]: the response, or [None] when the promise rejects. *)
  network : Request -> option Response;
  (** [Date.now()], in milliseconds. *)
  Date_now : Z;
  (** [date.toISOString()] of a time in milliseconds. *)
  toISOString : Z -> string;
  (** [new Date(text).getTime()]; [None] is [NaN]. *)
  Date_getTime : string -> option Z;
  (** [self.location.origin]. *)
  location_origin : string;
  (** The URL ['./index.html'] resolves to against the worker's location. *)
  index_html : string;
  (** The URL ['attendance-data-backup'] resolves to against it. *)
  backup_url : string
}.

Section Worker.

Context (host : Host).

Definition fetch (request : Request) : Async Response :=
  match network host request with
  | Some response => ret response
  | None => throw NetworkError
  end.

(** [new Response(JSON.stringify({error, offline: true, timestamp}), {status: 503, ...})] *)
Definition offlineResponse (message : string) : Response :=
  {| status := 503;
     statusText := "Service Unavailable";
     headers := [("content-type", "application/json")];
     body := JsonObject
       [ ("error", JString message);
         ("offline", JBool true);
         ("timestamp", JString (toISOString host (Date_now host))) ] |}.

(** The [catch] block shared in shape by [cacheFirst] and [networkFirst]: the
    fallback page for a navigation, when cached, else the error response. *)
Definition fallbackOrOffline (request : Request) (message : string) : Async Response :=
  if String.eqb (mode request) "navigate" then
    await fallbackResponse <- caches_match (index_html host);
    match fallbackResponse with
    | Some page => ret page
    | None => ret (offlineResponse message)
    end
  else ret (offlineResponse message).

(** [cache.put] is not awaited in the source: it is carried out here before
    the function's result is looked at, and its rejection is not caught by
    the [try]. *)
Definition cacheFirst (request : Request) : Async Response :=
  try_catch
    (await cachedResponse <- caches_match (cache_key request);
     match cachedResponse with
     | Some response => ret response
     | None =>
         await networkResponse <- fetch request;
         run (if ok networkResponse then
                await cache <- caches_open STATIC_CACHE;
                unawaited (cache_put cache (cache_key request) networkResponse)
              else ret tt);
         ret networkResponse
     end)
    (fun error =>
       fallbackOrOffline request "Network error and no cached version available").

Definition networkFirst (request : Request) : Async Response :=
  try_catch
    (await networkResponse <- fetch request;
     run (if ok networkResponse then
            await cache <- caches_open DYNAMIC_CACHE;
            unawaited (cache_put cache (cache_key request) networkResponse)
          else ret tt);
     ret networkResponse)
    (fun error =>
       await cachedResponse <- caches_match (cache_key request);
       match cachedResponse with
       | Some response => ret response
       | None => fallbackOrOffline request "Offline - No network connection"
       end).

(** What [staleWhileRevalidate] resolves to: [Ready] is the branch of
    [cachedResponse || networkResponsePromise] that hands out the stored
    copy without waiting for the network; [Awaited v] is the value the
    network promise settled to, [None] being [null]. *)
Inductive Reply : Type :=
  | Ready (response : Response)
  | Awaited (settled : option Response).

(** The response (or [null]) a reply delivers to [respondWith]. *)
Definition delivered (reply : Reply) : option Response :=
  match reply with
  | Ready response => Some response
  | Awaited settled => settled
  end.

(** [fetch(request).then(...).catch(...)] of [staleWhileRevalidate]. *)
Definition revalidate (cache : string) (request : Request) : Async (option Response) :=
  try_catch
    (await networkResponse <- fetch request;
     run (if ok networkResponse then
            unawaited (cache_put cache (cache_key request) networkResponse)
          else ret tt);
     ret (Some networkResponse))
    (fun error => ret None).

(** The network promise runs in the background; the storage the computation
    ends in is the one after that promise has settled. *)
Definition staleWhileRevalidate (request : Request) : Async Reply :=
  await cache <- caches_open DYNAMIC_CACHE;
  await cachedResponse <- cache_match cache (cache_key request);
  await settled <- revalidate cache request;
  ret (match cachedResponse with
       | Some response => Ready response
       | None => Awaited settled
       end).

(** ** The event handlers *)

Inductive Strategy : Type := CacheFirst | NetworkFirst | StaleWhileRevalidate.

(** [list.includes(x)] *)
Definition includes (l : list string) (x : string) : bool :=
  existsb (String.eqb x) l.

(** The [fetch] listener's choice; [None] when it returns without calling
    [respondWith]. *)
Definition route (request : Request) : option Strategy :=
  if negb (String.eqb (method request) "GET") then None
  else if includes CORE_FILES (url request) || includes CORE_FILES (url_pathname request)
  then Some CacheFirst
  else if String.eqb (url_origin request) "https://cdnjs.cloudflare.com"
  then Some StaleWhileRevalidate
  else if String.eqb (url_origin request) (location_origin host)
  then Some NetworkFirst
  else Some CacheFirst.

Definition strategy_run (s : Strategy) (request : Request) : Async (option Response) :=
  match s with
  | CacheFirst => await r <- cacheFirst request; ret (Some r)
  | NetworkFirst => await r <- networkFirst request; ret (Some r)
  | StaleWhileRevalidate => await r <- staleWhileRevalidate request; ret (delivered r)
  end.

(** The [fetch] listener: what [respondWith] was given, if it was called at
    all, and the storage afterwards. *)
Definition onFetch (request : Request) (cs : CacheStorage)
  : option (Completion (option Response)) * CacheStorage :=
  match route request with
  | None => (None, cs)
  | Some s => let (answer, cs') := strategy_run s request cs in (Some answer, cs')
  end.

(** The [activate] listener's cache part. *)
Definition onActivate : Async unit :=
  await cacheNames <- caches_keys;
  for_of cacheNames (fun cacheName =>
    if negb (String.eqb cacheName STATIC_CACHE) && negb (String.eqb cacheName DYNAMIC_CACHE)
    then caches_delete cacheName
    else ret tt).

(** What [JSON.stringify(data)] makes of the [data] of a message: a text,
    [undefined] (for [undefined] itself), or a [TypeError] (a cyclic value, a
    BigInt). *)
Inductive MessageData : Type :=
  | Serializable (text : string)
  | Unserialized
  | Unserializable.

Definition JSON_stringify (data : MessageData) : Async Body :=
  match data with
  | Serializable text => ret (Payload text)
  | Unserialized => ret NoBody
  | Unserializable => throw TypeError
  end.

(** [cacheAttendanceData(data)]; the [put] is awaited here, inside the
    [try]. *)
Definition cacheAttendanceData (data : MessageData) : Async unit :=
  try_catch
    (await cache <- caches_open DYNAMIC_CACHE;
     await text <- JSON_stringify data;
     let response :=
       {| status := 200; statusText := "";
          headers := [("content-type", "application/json")];
          body := text |} in
     cache_put cache (backup_url host) response)
    (fun error => ret tt).

Definition THIRTY_DAYS : Z := 30 * 24 * 60 * 60 * 1000.

(** A string is truthy when it is not empty. *)
Definition truthy (s : string) : bool := negb (String.eqb s "").

(** The body of the loop of [performCleanup] for one stored request. *)
Definition cleanupEntry (cache : string) (thirtyDaysAgo : Z) (request : string)
  : Async unit :=
  await response <- cache_match cache request;
  match response with
  | None => throw TypeError
  | Some response =>
      match headers_get "date" (headers response) with
      | Some dateHeader =>
          if truthy dateHeader then
            match Date_getTime host dateHeader with
            | Some responseDate =>
                if responseDate <? thirtyDaysAgo
                then cache_delete cache request
                else ret tt
            | None => ret tt
            end
          else ret tt
      | None => ret tt
      end
  end.

Definition performCleanup : Async unit :=
  try_catch
    (await cache <- caches_open DYNAMIC_CACHE;
     await requests <- cache_keys cache;
     let thirtyDaysAgo := Date_now host - THIRTY_DAYS in
     for_of requests (cleanupEntry cache thirtyDaysAgo))
    (fun error => ret tt).

End Worker.

(** ** The message and notification handlers *)

(** The values of the object [getCacheStatus] builds: the list of store
    names, a text, or a number of entries. *)
Inductive StatusValue : Type :=
  | Names (names : list string)
  | Text (text : string)
  | Count (n : nat).

(** [object[name] = value] for a primitive [value]; an assignment of a
    primitive to [__proto__] changes nothing. *)
Definition set_property (object : gmap string StatusValue) (name : string)
    (value : StatusValue) : gmap string StatusValue :=
  if String.eqb name "__proto__" then object else <[name := value]> object.

(** [for (const x of xs) { ... }] around a variable the body updates. *)
Fixpoint for_of_with {A B} (xs : list A) (acc : B) (body : B -> A -> Async B)
  : Async B :=
  match xs with
  | [] => ret acc
  | x :: rest => await acc' <- body acc x; for_of_with rest acc' body
  end.

(** A message event as the listener reads it: [event.data], [None] when it
    is [null] or [undefined], else its [type] ([None] when that is no
    string) and its [data]; and whether [event.ports[0]] is there. *)
Record MessageEvent : Type := mkMessageEvent {
  event_data : option (option string * MessageData);
  has_port : bool
}.

Section Handlers.

Context (host : Host).

(** [error.message], which the worker hands on without looking at it. *)
Context (error_message : JsError -> string).

Definition getCacheStatus : Async (gmap string StatusValue) :=
  try_catch
    (await cacheNames <- caches_keys;
     let status : gmap string StatusValue :=
       {[ "caches" := Names cacheNames;
          "timestamp" := Text (toISOString host (Date_now host));
          "version" := Text "v2.0.0" ]} in
     for_of_with cacheNames status (fun status cacheName =>
       await cache <- caches_open cacheName;
       await keys <- cache_keys cache;
       ret (set_property status cacheName (Count (length keys)))))
    (fun error => ret {[ "error" := Text (error_message error) ]}).

(** [type === name] for the [type] of a message, [None] being a type that
    is no string. *)
Definition type_is (type : option string) (name : string) : bool :=
  match type with
  | Some text => String.eqb text name
  | None => false
  end.

(** The [message] listener.  The result is what is posted on
    [event.ports[0]], if anything; [Thrown] is a failure nothing in the
    worker catches: the destructuring of an [event.data] that is [null] or
    [undefined], or the [postMessage] on a port that is not there.
    [cacheAttendanceData] is not awaited. *)
Definition onMessage (event : MessageEvent) : Async (option (gmap string StatusValue)) :=
  match event_data event with
  | None => throw TypeError
  | Some (type, data) =>
      if type_is type "SKIP_WAITING" then ret None
      else if type_is type "CACHE_ATTENDANCE_DATA" then
        run unawaited (cacheAttendanceData host data); ret None
      else if type_is type "GET_CACHE_STATUS" then
        await status <- getCacheStatus;
        if has_port event then ret (Some status) else throw TypeError
      else ret None
  end.

(** The [periodicsync] listener. *)
Definition onPeriodicSync (tag : string) : Async unit :=
  if String.eqb tag "cleanup" then performCleanup host else ret tt.

End Handlers.

(** A window client as the [notificationclick] listener reads it:
    [has_focus] is ['focus' in client]. *)
Record Client : Type := mkClient {
  client_url : string;
  has_focus : bool
}.

Inductive ClickEffect : Type :=
  | Focused (client : Client)
  | Opened (target : string)
  | NothingDone.

(** [action ? `./index.html?action=${action}` : './'] *)
Definition urlToOpen (action : string) : string :=
  if truthy action then "./index.html?action=" +:+ action else "./".

(** The [notificationclick] listener after [clients.matchAll]: the first
    client at [urlToOpen] that can be focused is focused, else a window is
    opened when [clients.openWindow] exists. *)
Fixpoint clickOn (target : string) (clients : list Client) (openWindow : bool)
  : ClickEffect :=
  match clients with
  | [] => if openWindow then Opened target else NothingDone
  | client :: rest =>
      if String.eqb (client_url client) target && has_focus client
      then Focused client
      else clickOn target rest openWindow
  end.

Definition onNotificationClick (action : string) (clients : list Client)
    (openWindow : bool) : ClickEffect :=
  clickOn (urlToOpen action) clients openWindow.

(** ** Vocabulary of the specification *)

(** Some store holds the response [r] under [key]: "a stored copy exists". *)
Definition holds_copy (cs : CacheStorage) (key : string) (r : Response) : Prop :=
  exists name c, (name, c) ∈ cs /\ c !! key = Some r.

(** [caches.open(name)] followed by [cache.put(key, r)]. *)
Definition put_in (name key : string) (r : Response) (cs : CacheStorage)
  : CacheStorage :=
  store_update name (insert key r) (storage_open name cs).

(** The storage after [caches.open(name)] and a [cache.put(key, r)] that
    may be refused. *)
Definition after_put (name key : string) (r : Response) (cs : CacheStorage)
  : CacheStorage :=
  if put_refused key r then storage_open name cs else put_in name key r cs.

(** The response [cacheAttendanceData] builds around a body. *)
Definition backup_response (content : Body) : Response :=
  {| status := 200; statusText := "";
     headers := [("content-type", "application/json")];
     body := content |}.

(** The object [getCacheStatus] returns for a storage: the three fields it
    starts with, then one count per store, in the order of the stores. *)
Definition status_report (host : Host) (cs : CacheStorage) : gmap string StatusValue :=
  foldl (fun status name =>
           set_property status name (Count (size (contents name cs))))
    {[ "caches" := Names (storage_keys cs);
       "timestamp" := Text (toISOString host (Date_now host));
       "version" := Text "v2.0.0" ]}
    (storage_keys cs).

(** The synthesized error payload: status 503 and a JSON body with the
    fields [error], [offline] and [timestamp], in this order and no other. *)
Definition is_offline_payload (r : Response) : Prop :=
  status r = 503 /\
  exists e o t, body r = JsonObject [("error", e); ("offline", o); ("timestamp", t)].

(** The fallback page applies: the request is a navigation and the page is
    cached. *)
Definition fallback_page (host : Host) (request : Request) (cs : CacheStorage)
  : option Response :=
  if String.eqb (mode request) "navigate"
  then storage_match (index_html host) cs
  else None.

(** A store name of an earlier version: neither of the two current names. *)
Definition stale (name : string) : Prop :=
  name ≠ STATIC_CACHE /\ name ≠ DYNAMIC_CACHE.

#[global] Instance stale_dec name : Decision (stale name).
Proof. unfold stale. apply _. Defined.

(** The timestamp stored with an entry: its [date] header, when it is there,
    not empty and a date. *)
Definition stored_timestamp (host : Host) (r : Response) : option Z :=
  match headers_get "date" (headers r) with
  | Some dateHeader =>
      if truthy dateHeader then Date_getTime host dateHeader else None
  | None => None
  end.

(** The age of a timestamp at the time of the cleanup, in milliseconds. *)
Definition age (host : Host) (timestamp : Z) : Z := Date_now host - timestamp.

(** The entry is older than the thirty days of [performCleanup]. *)
Definition expired (host : Host) (r : Response) : bool :=
  match stored_timestamp host r with
  | Some t => THIRTY_DAYS <? age host t
  | None => false
  end.

(** The store [c] after the loop of [performCleanup] has gone through
    [keys]: every visited entry that is expired is gone. *)
Definition sweep (host : Host) (c : Cache) (keys : list string) : Cache :=
  foldl (fun acc key =>
           match acc !! key with
           | Some r => if expired host r then delete key acc else acc
           | None => acc
           end) c keys.

(** ** Sample hosts, requests and responses *)

Module Sample.

Definition getTime (text : string) : option Z :=
  if String.eqb text "Mon, 01 Jan 2024 00:00:00 GMT" then Some 1704067200000
  else if String.eqb text "Wed, 31 Jan 2024 00:00:00 GMT" then Some 1706659200000
  else if String.eqb text "Thu, 29 Feb 2024 00:00:00 GMT" then Some 1709164800000
  else None.

(** A host on 1 March 2024, 00:00 UTC, whose every [fetch] is answered by
    [answer]. *)
Definition host_answering (answer : option Response) : Host :=
  {| network := fun _ => answer;
     Date_now := 1709251200000;
     toISOString := fun _ => "2024-03-01T00:00:00.000Z";
     Date_getTime := getTime;
     location_origin := "https://attendance.example";
     index_html := "https://attendance.example/index.html";
     backup_url := "https://attendance.example/attendance-data-backup" |}.

Definition offline_host : Host := host_answering None.

Definition page : Response :=
  {| status := 200; statusText := "OK";
     headers := [("content-type", "text/html")];
     body := Payload "<!DOCTYPE html>" |}.

Definition script : Response :=
  {| status := 200; statusText := "OK";
     headers := [("content-type", "application/javascript");
                 ("date", "Thu, 29 Feb 2024 00:00:00 GMT")];
     body := Payload "export {}" |}.

Definition old_script : Response :=
  {| status := 200; statusText := "OK";
     headers := [("content-type", "application/javascript");
                 ("date", "Mon, 01 Jan 2024 00:00:00 GMT")];
     body := Payload "export default 1" |}.

Definition not_found : Response :=
  {| status := 404; statusText := "Not Found";
     headers := [("content-type", "text/plain")];
     body := Payload "not found" |}.

Definition report_navigation : Request :=
  {| url := "https://attendance.example/report";
     url_origin := "https://attendance.example";
     url_pathname := "/report";
     method := "GET";
     mode := "navigate" |}.

Definition chart_script : Request :=
  {| url := "https://cdnjs.cloudflare.com/ajax/libs/Chart.js/4.4.1/chart.umd.js";
     url_origin := "https://cdnjs.cloudflare.com";
     url_pathname := "/ajax/libs/Chart.js/4.4.1/chart.umd.js";
     method := "GET";
     mode := "no-cors" |}.

(** A script of [CORE_FILES], requested with CORS. *)
Definition pdf_script : Request :=
  {| url := "https://cdnjs.cloudflare.com/ajax/libs/jspdf/2.5.1/jspdf.umd.min.js";
     url_origin := "https://cdnjs.cloudflare.com";
     url_pathname := "/ajax/libs/jspdf/2.5.1/jspdf.umd.min.js";
     method := "GET";
     mode := "cors" |}.

(** The report page, at one of its sections. *)
Definition report_section : Request :=
  {| url := "https://attendance.example/report#top";
     url_origin := "https://attendance.example";
     url_pathname := "/report";
     method := "GET";
     mode := "navigate" |}.

(** A range of a script: [ok], and refused by [cache.put]. *)
Definition partial_script : Response :=
  {| status := 206; statusText := "Partial Content";
     headers := [("content-type", "application/javascript");
                 ("content-range", "bytes 0-8/9")];
     body := Payload "export {}" |}.

(** A response that varies on everything: [ok], and refused by [cache.put]. *)
Definition varying_script : Response :=
  {| status := 200; statusText := "OK";
     headers := [("content-type", "application/javascript");
                 ("vary", "Accept-Encoding, *")];
     body := Payload "export {}" |}.

Definition post_report : Request :=
  {| url := "https://attendance.example/report";
     url_origin := "https://attendance.example";
     url_pathname := "/report";
     method := "POST";
     mode := "cors" |}.

End Sample.

(** The entries of [CORE_FILES] that are absolute URLs: the two scripts of
    the CDN. *)
Definition core_scripts : list string := drop 3 CORE_FILES.

(** The events that reach the storage, each with the host as it is when the
    event is handled, and the storage a handler leaves. *)
Inductive Event : Type :=
  | Activate
  | Fetch (host : Host) (request : Request)
  | Message (host : Host) (event : MessageEvent)
  | PeriodicSync (host : Host) (tag : string).

Definition handle (error_message : JsError -> string) (cs : CacheStorage)
    (event : Event) : CacheStorage :=
  match event with
  | Activate => (onActivate cs).2
  | Fetch host request => (onFetch host request cs).2
  | Message host event => (onMessage host error_message event cs).2
  | PeriodicSync host tag => (onPeriodicSync host tag cs).2
  end.

(** Every store has one of the two current names. *)
Definition only_current (cs : CacheStorage) : Prop :=
  forall name, name ∈ storage_keys cs -> ~ stale name.

(** * Properties *)

(** ** Cache Storage operations *)

Section StorageFacts.

Implicit Types (cs : CacheStorage) (c : Cache) (name key : string).

Lemma store_named_update_eq name f cs :
  store_named name (store_update name f cs) = f <$> store_named name cs.
Proof.
  induction cs as [|[n c] rest IH]; simpl; [done|].
  destruct (String.eqb_spec n name) as [->|Hne]; simpl.
  - by rewrite String.eqb_refl.
  - destruct (String.eqb_spec n name); [done|]. apply IH.
Qed.

Lemma store_named_update_ne name other f cs :
  name ≠ other ->
  store_named other (store_update name f cs) = store_named other cs.
Proof.
  intros Hne. induction cs as [|[n c] rest IH]; simpl; [done|].
  destruct (String.eqb_spec n name) as [->|Hn]; simpl.
  - destruct (String.eqb_spec name other); [done|done].
  - by rewrite IH.
Qed.

Lemma store_update_const_id name c cs :
  store_named name cs = Some c ->
  store_update name (fun _ => c) cs = cs.
Proof.
  induction cs as [|[n c'] rest IH]; simpl; [done|].
  destruct (String.eqb_spec n name) as [->|Hn].
  - by intros [= ->].
  - intros H. by rewrite IH.
Qed.

Lemma store_update_update name f g cs :
  store_update name g (store_update name f cs) = store_update name (g ∘ f) cs.
Proof.
  induction cs as [|[n c] rest IH]; simpl; [done|].
  destruct (String.eqb_spec n name) as [->|Hn]; simpl.
  - by rewrite String.eqb_refl.
  - destruct (String.eqb_spec n name); [done|]. by rewrite IH.
Qed.

Lemma store_update_ext name f g cs :
  (forall c, store_named name cs = Some c -> f c = g c) ->
  store_update name f cs = store_update name g cs.
Proof.
  induction cs as [|[n c] rest IH]; simpl; [done|].
  destruct (String.eqb_spec n name) as [->|Hn]; intros H.
  - by rewrite H.
  - by rewrite IH.
Qed.

Lemma store_named_app_ne name other cs c :
  name ≠ other ->
  store_named other (cs ++ [(name, c)]) = store_named other cs.
Proof.
  intros Hne. induction cs as [|[n c'] rest IH]; simpl.
  - by destruct (String.eqb_spec name other).
  - by rewrite IH.
Qed.

Lemma store_named_app_new name cs c :
  store_named name cs = None ->
  store_named name (cs ++ [(name, c)]) = Some c.
Proof.
  induction cs as [|[n c'] rest IH]; simpl.
  - by rewrite String.eqb_refl.
  - by destruct (String.eqb_spec n name).
Qed.

Lemma store_named_open_eq name cs :
  store_named name (storage_open name cs) = Some (contents name cs).
Proof.
  unfold storage_open, contents.
  destruct (store_named name cs) as [c|] eqn:E; simpl; [done|].
  by apply store_named_app_new.
Qed.

Lemma store_named_open_ne name other cs :
  name ≠ other ->
  store_named other (storage_open name cs) = store_named other cs.
Proof.
  intros Hne. unfold storage_open.
  destruct (store_named name cs); [done|]. by apply store_named_app_ne.
Qed.

Lemma contents_open name other cs :
  contents other (storage_open name cs) = contents other cs.
Proof.
  unfold contents at 1. destruct (decide (name = other)) as [->|Hne].
  - by rewrite store_named_open_eq.
  - by rewrite store_named_open_ne.
Qed.

Lemma storage_open_present name c cs :
  store_named name cs = Some c -> storage_open name cs = cs.
Proof. unfold storage_open. by intros ->. Qed.

Lemma store_named_delete name other cs :
  store_named other (storage_delete name cs) =
  if String.eqb other name then None else store_named other cs.
Proof.
  unfold storage_delete.
  induction cs as [|[n c] rest IH]; simpl.
  - by destruct (String.eqb other name).
  - rewrite filter_cons. simpl. destruct (decide (n ≠ name)) as [Hn|Hn]; simpl.
    + rewrite IH. destruct (String.eqb_spec n other) as [->|Hno]; [|done].
      by destruct (String.eqb_spec other name).
    + apply dec_stable in Hn as ->. rewrite IH.
      destruct (String.eqb_spec other name) as [->|Ho]; [done|].
      by destruct (String.eqb_spec name other).
Qed.

Lemma storage_match_holds key cs r :
  storage_match key cs = Some r -> holds_copy cs key r.
Proof.
  induction cs as [|[n c] rest IH]; simpl; [done|].
  destruct (c !! key) as [r'|] eqn:E.
  - intros [= ->]. exists n, c. split; [left|done].
  - intros H. destruct (IH H) as (n' & c' & Hin & Hc').
    exists n', c'. split; [by right|done].
Qed.

Lemma storage_match_complete key cs r :
  holds_copy cs key r -> is_Some (storage_match key cs).
Proof.
  intros (n & c & Hin & Hc). induction cs as [|[n' c'] rest IH]; simpl.
  - by apply elem_of_nil in Hin.
  - destruct (c' !! key) as [r'|] eqn:E; [by eexists|].
    apply elem_of_cons in Hin as [[= -> ->]|Hin]; [congruence|by apply IH].
Qed.

Lemma storage_match_None key cs :
  storage_match key cs = None <-> forall r, ~ holds_copy cs key r.
Proof.
  split.
  - intros Hnone r Hr. apply storage_match_complete in Hr as [r' Hr'].
    congruence.
  - intros Hno. destruct (storage_match key cs) as [r|] eqn:E; [|done].
    exfalso. eapply Hno, storage_match_holds, E.
Qed.

Lemma store_named_put_in_ne name other key r (cs : CacheStorage) :
  name ≠ other ->
  store_named other (put_in name key r cs) = store_named other cs.
Proof.
  intros Hne. unfold put_in.
  rewrite store_named_update_ne by done. by apply store_named_open_ne.
Qed.

Lemma contents_put_in name key r (cs : CacheStorage) :
  contents name (put_in name key r cs) = <[key := r]> (contents name cs).
Proof.
  unfold put_in, contents at 1.
  by rewrite store_named_update_eq, store_named_open_eq.
Qed.

Lemma store_named_after_put_ne name other key r (cs : CacheStorage) :
  name ≠ other ->
  store_named other (after_put name key r cs) = store_named other cs.
Proof.
  intros Hne. unfold after_put. destruct (put_refused key r).
  - by apply store_named_open_ne.
  - by apply store_named_put_in_ne.
Qed.

Lemma contents_after_put name key r (cs : CacheStorage) :
  contents name (after_put name key r cs) =
  if put_refused key r then contents name cs else <[key := r]> (contents name cs).
Proof.
  unfold after_put. destruct (put_refused key r).
  - apply contents_open.
  - apply contents_put_in.
Qed.

Lemma contents_after_put_other name other key key' r (cs : CacheStorage) :
  other ≠ name \/ key' ≠ key ->
  contents other (after_put name key r cs) !! key' = contents other cs !! key'.
Proof.
  intros Hother. destruct (decide (other = name)) as [->|Hname].
  - rewrite contents_after_put. destruct (put_refused key r); [done|].
    apply lookup_insert_ne. intros ->. tauto.
  - unfold contents. by rewrite store_named_after_put_ne.
Qed.

Lemma after_put_accepted name key r (cs : CacheStorage) :
  put_refused key r = false -> after_put name key r cs = put_in name key r cs.
Proof. unfold after_put. by intros ->. Qed.

End StorageFacts.

(** ** The strategies, case by case *)

Section StrategyFacts.

Context (host : Host).
Implicit Types (request : Request) (cs : CacheStorage).

Lemma fallbackOrOffline_run request message cs :
  fallbackOrOffline host request message cs =
  (Normal (default (offlineResponse host message) (fallback_page host request cs)), cs).
Proof.
  unfold fallbackOrOffline, fallback_page.
  destruct (String.eqb (mode request) "navigate"); [|done].
  unfold bind, caches_match, ret.
  by destruct (storage_match (index_html host) cs).
Qed.

Lemma put_run name key r cs :
  (await cache <- caches_open name; unawaited (cache_put cache key r)) cs
  = (Normal tt, after_put name key r cs).
Proof.
  unfold bind, caches_open, unawaited, cache_put, after_put, put_in.
  by destruct (put_refused key r).
Qed.

Lemma cacheFirst_run request cs :
  cacheFirst host request cs =
  match storage_match (cache_key request) cs with
  | Some stored => (Normal stored, cs)
  | None =>
      match network host request with
      | Some response =>
          (Normal response,
           if ok response
           then after_put STATIC_CACHE (cache_key request) response cs
           else cs)
      | None =>
          (Normal (default
                     (offlineResponse host "Network error and no cached version available")
                     (fallback_page host request cs)), cs)
      end
  end.
Proof.
  unfold cacheFirst, try_catch, bind at 1, caches_match.
  destruct (storage_match (cache_key request) cs) as [stored|]; [done|].
  unfold bind at 1, fetch.
  destruct (network host request) as [response|]; simpl.
  - unfold bind at 1. destruct (ok response); [by rewrite put_run|done].
  - apply fallbackOrOffline_run.
Qed.

Lemma networkFirst_run request cs :
  networkFirst host request cs =
  match network host request with
  | Some response =>
      (Normal response,
       if ok response
       then after_put DYNAMIC_CACHE (cache_key request) response cs
       else cs)
  | None =>
      match storage_match (cache_key request) cs with
      | Some stored => (Normal stored, cs)
      | None =>
          (Normal (default (offlineResponse host "Offline - No network connection")
                     (fallback_page host request cs)), cs)
      end
  end.
Proof.
  unfold networkFirst, try_catch, bind at 1, fetch.
  destruct (network host request) as [response|]; simpl.
  - unfold bind at 1. destruct (ok response); [by rewrite put_run|done].
  - unfold bind, caches_match.
    destruct (storage_match (cache_key request) cs) as [stored|]; [done|].
    apply fallbackOrOffline_run.
Qed.

Lemma revalidate_run cache request cs :
  revalidate host cache request cs =
  match network host request with
  | Some response =>
      (Normal (Some response),
       if ok response && negb (put_refused (cache_key request) response)
       then store_update cache (insert (cache_key request) response) cs
       else cs)
  | None => (Normal None, cs)
  end.
Proof.
  unfold revalidate, try_catch, bind at 1, fetch.
  destruct (network host request) as [response|]; simpl; [|done].
  unfold bind at 1. destruct (ok response); [|done].
  unfold unawaited, cache_put.
  by destruct (put_refused (cache_key request) response).
Qed.

Lemma staleWhileRevalidate_run request cs :
  staleWhileRevalidate host request cs =
  let opened := storage_open DYNAMIC_CACHE cs in
  let reply settled :=
    match contents DYNAMIC_CACHE cs !! cache_key request with
    | Some stored => Ready stored
    | None => Awaited settled
    end in
  match network host request with
  | Some response =>
      (Normal (reply (Some response)),
       if ok response
       then after_put DYNAMIC_CACHE (cache_key request) response cs
       else opened)
  | None => (Normal (reply None), opened)
  end.
Proof.
  unfold staleWhileRevalidate, bind at 1, caches_open.
  unfold bind at 1, cache_match. rewrite contents_open.
  unfold bind at 1. rewrite revalidate_run. unfold after_put, put_in.
  destruct (network host request) as [response|]; [|done].
  destruct (ok response); [|done].
  by destruct (put_refused (cache_key request) response).
Qed.

Lemma staleWhileRevalidate_other_stores request cs name :
  name ≠ DYNAMIC_CACHE ->
  store_named name (staleWhileRevalidate host request cs).2 = store_named name cs.
Proof.
  intros Hne. assert (DYNAMIC_CACHE ≠ name) as Hne' by done.
  rewrite staleWhileRevalidate_run. simpl.
  destruct (network host request) as [response|]; simpl.
  - destruct (ok response).
    + by apply store_named_after_put_ne.
    + by apply store_named_open_ne.
  - by apply store_named_open_ne.
Qed.

Lemma cacheAttendanceData_run (data : MessageData) cs :
  cacheAttendanceData host data cs =
  (Normal tt,
   match data with
   | Serializable text =>
       after_put DYNAMIC_CACHE (backup_url host) (backup_response (Payload text)) cs
   | Unserialized =>
       after_put DYNAMIC_CACHE (backup_url host) (backup_response NoBody) cs
   | Unserializable => storage_open DYNAMIC_CACHE cs
   end).
Proof.
  unfold cacheAttendanceData, try_catch, bind, caches_open, JSON_stringify,
    cache_put, after_put, put_in, ret, throw.
  destruct data as [text| |]; [| |done].
  - change {| status := 200; statusText := ""; headers := _; body := Payload text |}
      with (backup_response (Payload text)).
    by destruct (put_refused (backup_url host) (backup_response (Payload text))).
  - change {| status := 200; statusText := ""; headers := _; body := NoBody |}
      with (backup_response NoBody).
    by destruct (put_refused (backup_url host) (backup_response NoBody)).
Qed.

Lemma cacheAttendanceData_other_stores (data : MessageData) cs name :
  name ≠ DYNAMIC_CACHE ->
  store_named name (cacheAttendanceData host data cs).2 = store_named name cs.
Proof.
  intros Hne. assert (DYNAMIC_CACHE ≠ name) as Hne' by done.
  rewrite cacheAttendanceData_run. cbn [snd].
  destruct data; (by apply store_named_after_put_ne) || by apply store_named_open_ne.
Qed.

End StrategyFacts.

(** ** Activation *)

Section ActivateFacts.

Implicit Types (cs : CacheStorage) (name : string).

Lemma filter_agree {A} (P Q : A -> Prop)
    `{!forall x, Decision (P x), !forall x, Decision (Q x)} (l : list A) :
  (forall x, x ∈ l -> P x <-> Q x) -> filter P l = filter Q l.
Proof.
  induction l as [|x l IH]; intros Hl; [done|].
  rewrite !filter_cons, IH by (intros y Hy; apply Hl; by right).
  apply decide_ext, Hl. by left.
Qed.

Lemma filter_keeps_all {A} (P : A -> Prop) `{!forall x, Decision (P x)} (l : list A) :
  (forall x, x ∈ l -> P x) -> filter P l = l.
Proof.
  induction l as [|x l IH]; intros Hl; [done|].
  rewrite filter_cons_True by (apply Hl; by left).
  f_equal. apply IH. intros y Hy. apply Hl. by right.
Qed.

Lemma stale_test name :
  negb (String.eqb name STATIC_CACHE) && negb (String.eqb name DYNAMIC_CACHE) = true
  <-> stale name.
Proof.
  unfold stale.
  destruct (String.eqb_spec name STATIC_CACHE), (String.eqb_spec name DYNAMIC_CACHE);
    simpl; intuition congruence.
Qed.

Lemma activate_loop (names : list string) cs :
  for_of names (fun cacheName =>
    if negb (String.eqb cacheName STATIC_CACHE) && negb (String.eqb cacheName DYNAMIC_CACHE)
    then caches_delete cacheName
    else ret tt) cs
  = (Normal tt, filter (fun entry => ~ (entry.1 ∈ names /\ stale entry.1)) cs).
Proof.
  revert cs. induction names as [|n names IH]; intros cs; simpl.
  - unfold ret. f_equal. symmetry. apply filter_keeps_all.
    intros entry _ [Hin _]. by apply elem_of_nil in Hin.
  - unfold bind at 1.
    destruct (negb (String.eqb n STATIC_CACHE) && negb (String.eqb n DYNAMIC_CACHE))
      eqn:Hn; unfold caches_delete, ret; rewrite IH; f_equal.
    + apply stale_test in Hn.
      unfold storage_delete. rewrite list_filter_filter.
      apply list_filter_iff. intros [m c]; simpl. rewrite elem_of_cons.
      split.
      * intros [Hrest Hm] [[->|Hin] Hstale]; [done|]. by apply Hrest.
      * intros Hkeep. split; [tauto|]. intros ->. apply Hkeep. by split; [left|].
    + assert (~ stale n) as Hs by (rewrite <- stale_test; congruence).
      apply list_filter_iff. intros [m c]; simpl. rewrite elem_of_cons.
      split.
      * intros Hrest [[->|Hin] Hstale]; [done|]. by apply Hrest.
      * tauto.
Qed.

Lemma onActivate_run cs :
  onActivate cs = (Normal tt, filter (fun entry => ~ stale entry.1) cs).
Proof.
  unfold onActivate, bind, caches_keys. rewrite activate_loop. f_equal.
  apply filter_agree. intros [n c] Hin; simpl.
  assert (n ∈ storage_keys cs).
  { unfold storage_keys. apply list_elem_of_fmap. by exists (n, c). }
  tauto.
Qed.

End ActivateFacts.

(** ** Cleanup *)

Section CleanupFacts.

Context (host : Host).
Implicit Types (cs : CacheStorage) (c : Cache) (key : string).

Lemma before_threshold_expired r t :
  stored_timestamp host r = Some t ->
  (t <? Date_now host - THIRTY_DAYS) = expired host r.
Proof.
  intros Ht. unfold expired, age. rewrite Ht.
  destruct (Z.ltb_spec t (Date_now host - THIRTY_DAYS)),
           (Z.ltb_spec THIRTY_DAYS (Date_now host - t)); (done || lia).
Qed.

Lemma cleanupEntry_run cache key cs r :
  contents cache cs !! key = Some r ->
  cleanupEntry host cache (Date_now host - THIRTY_DAYS) key cs =
  (Normal tt, if expired host r then store_update cache (delete key) cs else cs).
Proof.
  intros Hr. unfold cleanupEntry, bind, cache_match. rewrite Hr.
  destruct (stored_timestamp host r) as [t|] eqn:Ht.
  - rewrite <- (before_threshold_expired r t Ht).
    unfold stored_timestamp in Ht.
    destruct (headers_get "date" (headers r)) as [dateHeader|]; [|done].
    destruct (truthy dateHeader); [|done]. rewrite Ht.
    by destruct (t <? Date_now host - THIRTY_DAYS).
  - unfold expired. rewrite Ht. unfold stored_timestamp in Ht.
    destruct (headers_get "date" (headers r)) as [dateHeader|]; [|done].
    destruct (truthy dateHeader); [|done]. by rewrite Ht.
Qed.

(** The loop visits keys of the store only, so [response] is never
    [undefined] and the [catch] block is not entered. *)
Lemma cleanup_loop cache (keys : list string) :
  forall cs c,
    store_named cache cs = Some c ->
    NoDup keys ->
    (forall key, key ∈ keys -> is_Some (c !! key)) ->
    for_of keys (cleanupEntry host cache (Date_now host - THIRTY_DAYS)) cs =
    (Normal tt, store_update cache (fun _ => sweep host c keys) cs).
Proof.
  induction keys as [|key keys IH]; intros cs c Hc Hnodup Hkeys; simpl.
  - unfold ret. by rewrite store_update_const_id.
  - apply NoDup_cons in Hnodup as [Hfresh Hnodup].
    destruct (Hkeys key) as [r Hr]; [by left|].
    unfold bind at 1.
    rewrite (cleanupEntry_run cache key cs r)
      by (unfold contents; by rewrite Hc).
    rewrite Hr.
    destruct (expired host r).
    + rewrite (IH _ (delete key c)); [by rewrite store_update_update|..|done|].
      * by rewrite store_named_update_eq, Hc.
      * intros k Hk. rewrite lookup_delete_ne by (by intros ->).
        apply Hkeys. by right.
    + apply IH; [done..|]. intros k Hk. apply Hkeys. by right.
Qed.

Lemma sweep_lookup (keys : list string) :
  forall c key,
    NoDup keys ->
    sweep host c keys !! key =
    match c !! key with
    | Some r => if decide (key ∈ keys) then
                  if expired host r then None else Some r
                else Some r
    | None => None
    end.
Proof.
  induction keys as [|k keys IH]; intros c key Hnodup.
  - simpl. destruct (c !! key); [|done].
    destruct (decide (key ∈ [])) as [Hin|_]; [|done]. by apply elem_of_nil in Hin.
  - apply NoDup_cons in Hnodup as [Hfresh Hnodup].
    change (sweep host c (k :: keys)) with
      (sweep host (match c !! k with
                   | Some r => if expired host r then delete k c else c
                   | None => c
                   end) keys).
    rewrite IH by done.
    destruct (decide (key = k)) as [->|Hne].
    + destruct (decide (k ∈ keys)) as [?|_]; [done|].
      destruct (decide (k ∈ k :: keys)) as [_|Hout]; [|exfalso; apply Hout; by left].
      destruct (c !! k) as [r|] eqn:Hr; [|by rewrite Hr].
      destruct (expired host r) eqn:He; [by rewrite lookup_delete_eq|].
      by rewrite Hr.
    + assert (Hsame : (match c !! k with
                       | Some r => if expired host r then delete k c else c
                       | None => c
                       end) !! key = c !! key).
      { destruct (c !! k) as [r|]; [|done].
        destruct (expired host r); [by rewrite lookup_delete_ne|done]. }
      rewrite Hsame. destruct (c !! key) as [r|]; [|done].
      apply decide_ext. rewrite elem_of_cons. intuition congruence.
Qed.

Lemma performCleanup_run cs :
  performCleanup host cs =
  (Normal tt,
   store_update DYNAMIC_CACHE
     (fun _ => sweep host (contents DYNAMIC_CACHE cs)
                 (store_keys (contents DYNAMIC_CACHE cs)))
     (storage_open DYNAMIC_CACHE cs)).
Proof.
  unfold performCleanup, try_catch, bind at 1, caches_open.
  unfold bind at 1, cache_keys. rewrite contents_open.
  rewrite (cleanup_loop DYNAMIC_CACHE _ _ (contents DYNAMIC_CACHE cs)); [done|..].
  - apply store_named_open_eq.
  - apply NoDup_fst_map_to_list.
  - intros key Hkey. apply list_elem_of_fmap in Hkey as [[k r] [-> Hin]].
    apply elem_of_map_to_list in Hin. by exists r.
Qed.

(** What the dynamic store holds after the cleanup. *)
Lemma performCleanup_lookup cs key :
  contents DYNAMIC_CACHE (performCleanup host cs).2 !! key =
  match contents DYNAMIC_CACHE cs !! key with
  | Some r => if expired host r then None else Some r
  | None => None
  end.
Proof.
  rewrite performCleanup_run. simpl. unfold contents at 1.
  rewrite store_named_update_eq, store_named_open_eq. simpl.
  rewrite sweep_lookup by apply NoDup_fst_map_to_list.
  destruct (contents DYNAMIC_CACHE cs !! key) as [r|] eqn:Hr; [|done].
  rewrite decide_True; [done|].
  apply list_elem_of_fmap. exists (key, r). split; [done|].
  by apply elem_of_map_to_list.
Qed.

Lemma performCleanup_other_stores cs name :
  name ≠ DYNAMIC_CACHE ->
  store_named name (performCleanup host cs).2 = store_named name cs.
Proof.
  intros Hne. rewrite performCleanup_run. simpl.
  rewrite store_named_update_ne by done. by apply store_named_open_ne.
Qed.

End CleanupFacts.

(** ** The claims of the specification *)

Lemma store_named_current (cs : CacheStorage) name :
  store_named name (filter (fun entry => ~ stale entry.1) cs) =
  if decide (stale name) then None else store_named name cs.
Proof.
  induction cs as [|[n c] rest IH]; simpl.
  - by destruct (decide (stale name)).
  - rewrite filter_cons. simpl.
    destruct (decide (~ stale n)) as [Hn|Hn]; simpl; rewrite IH.
    + destruct (String.eqb_spec n name) as [->|Hne]; [|done].
      by destruct (decide (stale name)).
    + destruct (String.eqb_spec n name) as [->|Hne]; [|done].
      apply dec_stable in Hn. by destruct (decide (stale name)).
Qed.

(** C4.  Cache-first returns a stored copy when some store holds one, and
    then leaves the storage alone.  When no store holds one it fetches and
    returns the network response as it is: a response that is not [ok]
    leaves the storage as it was; an [ok] response that the store accepts
    is afterwards in the static store under the request's key; an [ok]
    response the store refuses changes no entry; and in no case does
    another entry of any store change.  When the fetch fails the answer is
    the cached fallback page for a navigation, and the synthesized error
    payload otherwise, the storage staying as it was. *)
Theorem cacheFirst_cases (host : Host) (request : Request) (cs : CacheStorage) :
  ((exists copy, holds_copy cs (cache_key request) copy) ->
   exists stored, holds_copy cs (cache_key request) stored /\
                  cacheFirst host request cs = (Normal stored, cs))
  /\
  (forall response,
     (forall copy, ~ holds_copy cs (cache_key request) copy) ->
     network host request = Some response ->
     (cacheFirst host request cs).1 = Normal response /\
     (ok response = false -> (cacheFirst host request cs).2 = cs) /\
     (ok response = true ->
      put_refused (cache_key request) response = false ->
      contents STATIC_CACHE (cacheFirst host request cs).2 !! cache_key request
      = Some response) /\
     (ok response = true ->
      put_refused (cache_key request) response = true ->
      forall name,
        contents name (cacheFirst host request cs).2 = contents name cs) /\
     (forall name key,
        name ≠ STATIC_CACHE \/ key ≠ cache_key request ->
        contents name (cacheFirst host request cs).2 !! key = contents name cs !! key))
  /\
  ((forall copy, ~ holds_copy cs (cache_key request) copy) ->
   network host request = None ->
   exists answer,
     cacheFirst host request cs = (Normal answer, cs) /\
     match fallback_page host request cs with
     | Some fallback => answer = fallback
     | None => is_offline_payload answer
     end).
Proof.
  rewrite cacheFirst_run. split; [|split].
  - intros [copy Hcopy].
    destruct (storage_match_complete _ _ _ Hcopy) as [stored Hstored].
    exists stored. rewrite Hstored. eauto using storage_match_holds.
  - intros response Hnone Hnet.
    apply storage_match_None in Hnone. rewrite Hnone, Hnet. cbn [fst snd].
    split; [done|]. split; [by intros ->|]. split; [|split].
    + intros -> Haccepted. by rewrite contents_after_put, Haccepted, lookup_insert_eq.
    + intros -> Hrefused name. unfold after_put. rewrite Hrefused.
      apply contents_open.
    + intros name key Hother. destruct (ok response); [|done].
      by apply contents_after_put_other.
  - intros Hnone Hnet. apply storage_match_None in Hnone.
    rewrite Hnone, Hnet. eexists. split; [done|].
    destruct (fallback_page host request cs); simpl; [done|].
    split; [done|]. by eexists _, _, _.
Qed.

Lemma cacheFirst_cases_witness :
  route (Sample.host_answering (Some Sample.script)) Sample.pdf_script = Some CacheFirst /\
  (cacheFirst (Sample.host_answering (Some Sample.script)) Sample.pdf_script []).1
  = Normal Sample.script /\
  contents STATIC_CACHE
    (cacheFirst (Sample.host_answering (Some Sample.script)) Sample.pdf_script []).2
    !! cache_key Sample.pdf_script = Some Sample.script.
Proof.
  pose proof (cacheFirst_cases (Sample.host_answering (Some Sample.script))
    Sample.pdf_script []) as (_ & Hnet & _).
  destruct (Hnet Sample.script) as (Hanswer & _ & Hstored & _).
  - apply storage_match_None. reflexivity.
  - reflexivity.
  - split; [reflexivity|]. split; [exact Hanswer|].
    apply Hstored; reflexivity.
Defined.

(** C5.  Network-first fetches first and returns the network response as it
    is: a response that is not [ok] leaves the storage as it was; an [ok]
    response that the store accepts is afterwards in the dynamic store under
    the request's key; an [ok] response the store refuses changes no entry;
    and in no case does another entry of any store change.  When the fetch
    fails it answers with a stored copy if some store holds one, else with
    the cached fallback page for a navigation, else with the synthesized
    error payload; in these cases the storage stays as it was. *)
Theorem networkFirst_cases (host : Host) (request : Request) (cs : CacheStorage) :
  (forall response,
     network host request = Some response ->
     (networkFirst host request cs).1 = Normal response /\
     (ok response = false -> (networkFirst host request cs).2 = cs) /\
     (ok response = true ->
      put_refused (cache_key request) response = false ->
      contents DYNAMIC_CACHE (networkFirst host request cs).2 !! cache_key request
      = Some response) /\
     (ok response = true ->
      put_refused (cache_key request) response = true ->
      forall name,
        contents name (networkFirst host request cs).2 = contents name cs) /\
     (forall name key,
        name ≠ DYNAMIC_CACHE \/ key ≠ cache_key request ->
        contents name (networkFirst host request cs).2 !! key = contents name cs !! key))
  /\
  (network host request = None ->
   (exists copy, holds_copy cs (cache_key request) copy) ->
   exists stored, holds_copy cs (cache_key request) stored /\
                  networkFirst host request cs = (Normal stored, cs))
  /\
  (network host request = None ->
   (forall copy, ~ holds_copy cs (cache_key request) copy) ->
   exists answer,
     networkFirst host request cs = (Normal answer, cs) /\
     match fallback_page host request cs with
     | Some fallback => answer = fallback
     | None => is_offline_payload answer
     end).
Proof.
  rewrite networkFirst_run. split; [|split].
  - intros response Hnet. rewrite Hnet. cbn [fst snd].
    split; [done|]. split; [by intros ->|]. split; [|split].
    + intros -> Haccepted. by rewrite contents_after_put, Haccepted, lookup_insert_eq.
    + intros -> Hrefused name. unfold after_put. rewrite Hrefused.
      apply contents_open.
    + intros name key Hother. destruct (ok response); [|done].
      by apply contents_after_put_other.
  - intros Hnet [copy Hcopy]. rewrite Hnet.
    destruct (storage_match_complete _ _ _ Hcopy) as [stored Hstored].
    exists stored. rewrite Hstored. eauto using storage_match_holds.
  - intros Hnet Hnone. apply storage_match_None in Hnone.
    rewrite Hnet, Hnone. eexists. split; [done|].
    destruct (fallback_page host request cs); simpl; [done|].
    split; [done|]. by eexists _, _, _.
Qed.

Lemma networkFirst_cases_witness :
  route Sample.offline_host Sample.report_section = Some NetworkFirst /\
  networkFirst Sample.offline_host Sample.report_section
    [(DYNAMIC_CACHE, {[ "https://attendance.example/report" := Sample.page ]})]
  = (Normal Sample.page,
     [(DYNAMIC_CACHE, {[ "https://attendance.example/report" := Sample.page ]})]) /\
  contents DYNAMIC_CACHE
    (networkFirst (Sample.host_answering (Some Sample.page)) Sample.report_section []).2
    !! "https://attendance.example/report" = Some Sample.page.
Proof.
  split; [reflexivity|]. split.
  - pose proof (networkFirst_cases Sample.offline_host Sample.report_section
      [(DYNAMIC_CACHE, {[ "https://attendance.example/report" := Sample.page ]})])
      as (_ & Hstored & _).
    destruct Hstored as (stored & Hheld & Hrun).
    + reflexivity.
    + exists Sample.page, DYNAMIC_CACHE, {[ "https://attendance.example/report" := Sample.page ]}.
      split; [by left|reflexivity].
    + rewrite Hrun. vm_compute in Hrun. injection Hrun as <-. reflexivity.
  - pose proof (networkFirst_cases (Sample.host_answering (Some Sample.page))
      Sample.report_section []) as (Hnet & _ & _).
    destruct (Hnet Sample.page) as (_ & _ & Hstored & _); [reflexivity|].
    apply Hstored; reflexivity.
Defined.

(** What the two strategies with a [catch] block do on total failure: with
    the fetch failing, no store holding a copy of the request and no
    fallback page applying, each returns the synthesized error payload and
    leaves the storage as it was. *)
Lemma siblings_offline_payload (host : Host) (request : Request) (cs : CacheStorage) :
  network host request = None ->
  (forall copy, ~ holds_copy cs (cache_key request) copy) ->
  fallback_page host request cs = None ->
  exists first second,
    cacheFirst host request cs = (Normal first, cs) /\ is_offline_payload first /\
    networkFirst host request cs = (Normal second, cs) /\ is_offline_payload second.
Proof.
  intros Hnet Hnone Hfallback. apply storage_match_None in Hnone.
  rewrite cacheFirst_run, networkFirst_run, Hnet, Hnone, Hfallback. simpl.
  eexists _, _. repeat split; by eexists _, _, _.
Qed.

(** C1.  The claim holds of cache-first and network-first and fails at
    stale-while-revalidate: with the fetch failing and no copy of the
    request in the dynamic store, [staleWhileRevalidate] resolves to
    [null], which is no response at all, where its two siblings (when no
    fallback page applies) return the synthesized error payload of status
    503. *)
Theorem staleWhileRevalidate_total_failure (host : Host) (request : Request)
    (cs : CacheStorage) :
  network host request = None ->
  contents DYNAMIC_CACHE cs !! cache_key request = None ->
  staleWhileRevalidate host request cs
    = (Normal (Awaited None), storage_open DYNAMIC_CACHE cs) /\
  delivered (Awaited None) = None /\
  ((forall copy, ~ holds_copy cs (cache_key request) copy) ->
   fallback_page host request cs = None ->
   exists first second,
     cacheFirst host request cs = (Normal first, cs) /\ is_offline_payload first /\
     networkFirst host request cs = (Normal second, cs) /\ is_offline_payload second).
Proof.
  intros Hnet Hmiss. split; [|split; [done|]].
  - rewrite staleWhileRevalidate_run, Hnet. simpl. by rewrite Hmiss.
  - intros Hnone Hfallback. by apply siblings_offline_payload.
Qed.

Lemma staleWhileRevalidate_total_failure_witness :
  route Sample.offline_host Sample.chart_script = Some StaleWhileRevalidate /\
  staleWhileRevalidate Sample.offline_host Sample.chart_script []
    = (Normal (Awaited None), [(DYNAMIC_CACHE, ∅)]) /\
  exists first,
    cacheFirst Sample.offline_host Sample.chart_script [] = (Normal first, []) /\
    status first = 503.
Proof.
  split; [reflexivity|].
  destruct (staleWhileRevalidate_total_failure Sample.offline_host Sample.chart_script [])
    as (Hnull & _ & Hsiblings); [reflexivity..|].
  split; [exact Hnull|].
  destruct Hsiblings as (first & second & Hfirst & [Hstatus _] & _).
  - apply storage_match_None. reflexivity.
  - reflexivity.
  - by exists first.
Defined.

(** C2, as amended.  Stale-while-revalidate answers with the copy the
    dynamic store holds under the request's key, whenever it holds one,
    without waiting for the network ([Ready]); in the background the
    fetched response replaces the stored copy when it is [ok] and the store
    accepts it; when the fetch fails, the response is not [ok] or the store
    refuses it, what the dynamic store holds stays as it was.  No other
    store is touched. *)
Theorem staleWhileRevalidate_cases (host : Host) (request : Request) (cs : CacheStorage) :
  (forall stored,
     contents DYNAMIC_CACHE cs !! cache_key request = Some stored ->
     (staleWhileRevalidate host request cs).1 = Normal (Ready stored))
  /\
  (forall response,
     network host request = Some response -> ok response = true ->
     put_refused (cache_key request) response = false ->
     contents DYNAMIC_CACHE (staleWhileRevalidate host request cs).2 =
     <[cache_key request := response]> (contents DYNAMIC_CACHE cs))
  /\
  ((forall response,
      network host request = Some response ->
      ok response = false \/ put_refused (cache_key request) response = true) ->
   contents DYNAMIC_CACHE (staleWhileRevalidate host request cs).2 =
   contents DYNAMIC_CACHE cs)
  /\
  (forall name,
     name ≠ DYNAMIC_CACHE ->
     store_named name (staleWhileRevalidate host request cs).2 = store_named name cs).
Proof.
  split; [|split; [|split]].
  - intros stored Hstored. rewrite staleWhileRevalidate_run. simpl.
    rewrite Hstored. by destruct (network host request).
  - intros response Hnet Hok Haccepted. rewrite staleWhileRevalidate_run. simpl.
    rewrite Hnet, Hok. simpl. by rewrite contents_after_put, Haccepted.
  - intros Hbad. rewrite staleWhileRevalidate_run. simpl.
    destruct (network host request) as [response|] eqn:Hnet.
    + simpl. destruct (ok response) eqn:Hok; [|apply contents_open].
      destruct (Hbad response eq_refl) as [?|Hrefused]; [congruence|].
      by rewrite contents_after_put, Hrefused.
    + simpl. apply contents_open.
  - intros name Hne. by apply staleWhileRevalidate_other_stores.
Qed.

Lemma staleWhileRevalidate_cases_witness :
  (staleWhileRevalidate (Sample.host_answering (Some Sample.script)) Sample.chart_script
     [(DYNAMIC_CACHE, {[ cache_key Sample.chart_script := Sample.old_script ]})]).1
  = Normal (Ready Sample.old_script)
  /\
  contents DYNAMIC_CACHE
    (staleWhileRevalidate (Sample.host_answering (Some Sample.script)) Sample.chart_script
       [(DYNAMIC_CACHE, {[ cache_key Sample.chart_script := Sample.old_script ]})]).2
  = <[cache_key Sample.chart_script := Sample.script]>
      (contents DYNAMIC_CACHE
         [(DYNAMIC_CACHE, {[ cache_key Sample.chart_script := Sample.old_script ]})]).
Proof.
  pose proof (staleWhileRevalidate_cases (Sample.host_answering (Some Sample.script))
    Sample.chart_script
    [(DYNAMIC_CACHE, {[ cache_key Sample.chart_script := Sample.old_script ]})])
    as (Hready & Hfresh & _ & _).
  split.
  - apply Hready. reflexivity.
  - apply (Hfresh Sample.script); reflexivity.
Defined.

(** C2, as stated, fails.  The network answers 404 for a script whose copy
    is in the dynamic store: the copy is returned, and it is not
    overwritten by what the re-fetch brought; the same holds of an answer
    206, which is [ok] and which the store refuses.  And when the copy is
    in the static store instead, it is not what the strategy returns: the
    reply is the network's. *)
Lemma revalidate_not_found_counterexample :
  let host := Sample.host_answering (Some Sample.not_found) in
  let ranged := Sample.host_answering (Some Sample.partial_script) in
  let cs : CacheStorage :=
    [(DYNAMIC_CACHE, {[ cache_key Sample.chart_script := Sample.old_script ]})] in
  let elsewhere : CacheStorage :=
    [(STATIC_CACHE, {[ cache_key Sample.chart_script := Sample.old_script ]})] in
  network host Sample.chart_script = Some Sample.not_found /\
  staleWhileRevalidate host Sample.chart_script cs = (Normal (Ready Sample.old_script), cs) /\
  contents DYNAMIC_CACHE (staleWhileRevalidate host Sample.chart_script cs).2
    !! cache_key Sample.chart_script = Some Sample.old_script /\
  Sample.old_script ≠ Sample.not_found /\
  ok Sample.partial_script = true /\
  staleWhileRevalidate ranged Sample.chart_script cs = (Normal (Ready Sample.old_script), cs) /\
  holds_copy elsewhere (cache_key Sample.chart_script) Sample.old_script /\
  (staleWhileRevalidate host Sample.chart_script elsewhere).1 =
    Normal (Awaited (Some Sample.not_found)).
Proof.
  repeat split; try reflexivity; [discriminate|].
  eexists _, _. split; [by left|reflexivity].
Qed.

(** C6, as amended.  With the network down, cache-first and network-first
    return a stored copy of the request when any store holds one, and
    stale-while-revalidate returns the copy the dynamic store holds when it
    holds one. *)
Theorem stored_copy_served_offline (host : Host) (request : Request) (cs : CacheStorage) :
  network host request = None ->
  ((exists copy, holds_copy cs (cache_key request) copy) ->
   exists stored,
     holds_copy cs (cache_key request) stored /\
     cacheFirst host request cs = (Normal stored, cs) /\
     networkFirst host request cs = (Normal stored, cs))
  /\
  (forall stored,
     contents DYNAMIC_CACHE cs !! cache_key request = Some stored ->
     staleWhileRevalidate host request cs = (Normal (Ready stored), cs)).
Proof.
  intros Hnet. split.
  - intros [copy Hcopy].
    destruct (storage_match_complete _ _ _ Hcopy) as [stored Hstored].
    exists stored. rewrite cacheFirst_run, networkFirst_run, Hnet, Hstored.
    eauto using storage_match_holds.
  - intros stored Hstored. rewrite staleWhileRevalidate_run, Hnet. simpl.
    rewrite Hstored. f_equal. unfold contents in Hstored.
    destruct (store_named DYNAMIC_CACHE cs) as [c|] eqn:Hc; [|done].
    by apply storage_open_present with c.
Qed.

Lemma stored_copy_served_offline_witness :
  staleWhileRevalidate Sample.offline_host Sample.chart_script
    [(DYNAMIC_CACHE, {[ cache_key Sample.chart_script := Sample.script ]})]
  = (Normal (Ready Sample.script),
     [(DYNAMIC_CACHE, {[ cache_key Sample.chart_script := Sample.script ]})]).
Proof.
  apply (stored_copy_served_offline Sample.offline_host Sample.chart_script
           [(DYNAMIC_CACHE, {[ cache_key Sample.chart_script := Sample.script ]})]);
    reflexivity.
Defined.

(** C6, as stated, fails.  A copy of the request is stored, in the static
    store, and the network is down: stale-while-revalidate looks in the
    dynamic store only and delivers [null]. *)
Lemma stored_copy_counterexample :
  let host := Sample.offline_host in
  let cs : CacheStorage :=
    [(STATIC_CACHE, {[ cache_key Sample.chart_script := Sample.script ]})] in
  network host Sample.chart_script = None /\
  holds_copy cs (cache_key Sample.chart_script) Sample.script /\
  (staleWhileRevalidate host Sample.chart_script cs).1 = Normal (Awaited None) /\
  delivered (Awaited None) = None.
Proof.
  repeat split; try reflexivity.
  eexists _, _. split; [by left|reflexivity].
Qed.

(** C3.  The cleanup completes, and afterwards the dynamic store has lost
    every entry whose stored timestamp is more than thirty days old, still
    holds, unchanged, every entry whose stored timestamp is thirty days old
    or newer and every entry without a stored timestamp, and has gained
    nothing; the other stores are as they were. *)
Theorem performCleanup_thirty_days (host : Host) (cs : CacheStorage) :
  (performCleanup host cs).1 = Normal tt
  /\
  (forall key r t,
     contents DYNAMIC_CACHE cs !! key = Some r ->
     stored_timestamp host r = Some t ->
     THIRTY_DAYS < age host t ->
     contents DYNAMIC_CACHE (performCleanup host cs).2 !! key = None)
  /\
  (forall key r t,
     contents DYNAMIC_CACHE cs !! key = Some r ->
     stored_timestamp host r = Some t ->
     age host t <= THIRTY_DAYS ->
     contents DYNAMIC_CACHE (performCleanup host cs).2 !! key = Some r)
  /\
  (forall key r,
     contents DYNAMIC_CACHE cs !! key = Some r ->
     stored_timestamp host r = None ->
     contents DYNAMIC_CACHE (performCleanup host cs).2 !! key = Some r)
  /\
  (forall key,
     contents DYNAMIC_CACHE cs !! key = None ->
     contents DYNAMIC_CACHE (performCleanup host cs).2 !! key = None)
  /\
  (forall name,
     name ≠ DYNAMIC_CACHE ->
     store_named name (performCleanup host cs).2 = store_named name cs).
Proof.
  split; [by rewrite performCleanup_run|].
  repeat split.
  - intros key r t Hr Ht Hold. rewrite performCleanup_lookup, Hr.
    unfold expired. rewrite Ht.
    destruct (Z.ltb_spec THIRTY_DAYS (age host t)); [done|lia].
  - intros key r t Hr Ht Hyoung. rewrite performCleanup_lookup, Hr.
    unfold expired. rewrite Ht.
    destruct (Z.ltb_spec THIRTY_DAYS (age host t)); [lia|done].
  - intros key r Hr Ht. rewrite performCleanup_lookup, Hr.
    unfold expired. by rewrite Ht.
  - intros key Hr. by rewrite performCleanup_lookup, Hr.
  - intros name Hne. by apply performCleanup_other_stores.
Qed.

Lemma performCleanup_thirty_days_witness :
  let cs : CacheStorage :=
    [(DYNAMIC_CACHE, {[ "https://attendance.example/old.js" := Sample.old_script;
                        "https://attendance.example/new.js" := Sample.script ]})] in
  contents DYNAMIC_CACHE (performCleanup Sample.offline_host cs).2
    !! "https://attendance.example/old.js" = None
  /\
  contents DYNAMIC_CACHE (performCleanup Sample.offline_host cs).2
    !! "https://attendance.example/new.js" = Some Sample.script.
Proof.
  intros cs.
  pose proof (performCleanup_thirty_days Sample.offline_host cs)
    as (_ & Hold & Hyoung & _).
  split.
  - apply (Hold _ Sample.old_script 1704067200000); reflexivity.
  - apply (Hyoung _ Sample.script 1709164800000); [reflexivity..|].
    vm_compute. discriminate.
Defined.

(** C10.  An entry of the dynamic store whose response has no [date] header
    is still there, unchanged, after the cleanup. *)
Theorem performCleanup_keeps_undated (host : Host) (cs : CacheStorage)
    (key : string) (r : Response) :
  contents DYNAMIC_CACHE cs !! key = Some r ->
  headers_get "date" (headers r) = None ->
  contents DYNAMIC_CACHE (performCleanup host cs).2 !! key = Some r.
Proof.
  intros Hr Hdate. rewrite performCleanup_lookup, Hr.
  unfold expired, stored_timestamp. by rewrite Hdate.
Qed.

Lemma performCleanup_keeps_undated_witness :
  contents DYNAMIC_CACHE
    (performCleanup Sample.offline_host
       [(DYNAMIC_CACHE, {[ "attendance-data-backup" := Sample.page ]})]).2
    !! "attendance-data-backup" = Some Sample.page.
Proof.
  apply (performCleanup_keeps_undated Sample.offline_host
           [(DYNAMIC_CACHE, {[ "attendance-data-backup" := Sample.page ]})]);
    reflexivity.
Defined.

(** C7.  The activate handler completes; afterwards no store is left whose
    name differs from both current names, and the static and the dynamic
    store are what they were: the storage is the old one without the stale
    stores, in the old order. *)
Theorem onActivate_deletes_stale_stores (cs : CacheStorage) :
  (onActivate cs).1 = Normal tt
  /\
  (forall name c, (name, c) ∈ (onActivate cs).2 -> ~ stale name)
  /\
  (forall name, stale name -> store_named name (onActivate cs).2 = None)
  /\
  store_named STATIC_CACHE (onActivate cs).2 = store_named STATIC_CACHE cs
  /\
  store_named DYNAMIC_CACHE (onActivate cs).2 = store_named DYNAMIC_CACHE cs
  /\
  (onActivate cs).2 = filter (fun entry => ~ stale entry.1) cs.
Proof.
  rewrite onActivate_run. simpl. repeat split.
  - intros name c Hin. by apply list_elem_of_filter in Hin as [Hkeep _].
  - intros name Hstale. rewrite store_named_current. by rewrite decide_True.
  - rewrite store_named_current. rewrite decide_False; [done|]. by intros [? _].
  - rewrite store_named_current. rewrite decide_False; [done|]. by intros [_ ?].
Qed.

Lemma onActivate_deletes_stale_stores_witness :
  store_named "attendance-static-v1.0.0"
    (onActivate [("attendance-static-v1.0.0", {[ "https://attendance.example/" := Sample.page ]});
                 (STATIC_CACHE, ∅)]).2 = None.
Proof.
  pose proof (onActivate_deletes_stale_stores
    [("attendance-static-v1.0.0", {[ "https://attendance.example/" := Sample.page ]});
     (STATIC_CACHE, ∅)]) as (_ & _ & Hgone & _).
  apply Hgone. split; discriminate.
Defined.

(** C8.  For a request whose method is not GET the fetch listener calls no
    strategy: [respondWith] is not called and the storage is what it was. *)
Theorem onFetch_ignores_other_methods (host : Host) (request : Request) (cs : CacheStorage) :
  method request ≠ "GET" ->
  route host request = None /\ onFetch host request cs = (None, cs).
Proof.
  intros Hmethod. unfold onFetch.
  assert (route host request = None) as ->; [|done].
  unfold route. by destruct (String.eqb_spec (method request) "GET").
Qed.

Lemma onFetch_ignores_other_methods_witness :
  onFetch Sample.offline_host Sample.post_report
    [(DYNAMIC_CACHE, {[ url Sample.post_report := Sample.page ]})]
  = (None, [(DYNAMIC_CACHE, {[ url Sample.post_report := Sample.page ]})]).
Proof.
  apply (onFetch_ignores_other_methods Sample.offline_host Sample.post_report).
  discriminate.
Defined.

(** C9.  Cache-first changes no store but the static one; network-first,
    stale-while-revalidate and the attendance backup change no store but
    the dynamic one; the cleanup changes no store but the dynamic one.  So
    the static store, as cache-first leaves it, is the same after a
    cleanup, and a response cache-first has fetched and the store has
    accepted is still there. *)
Theorem writes_partitioned_by_strategy (host : Host) (request : Request) (cs : CacheStorage) :
  (forall name,
     name ≠ STATIC_CACHE ->
     store_named name (cacheFirst host request cs).2 = store_named name cs)
  /\
  (forall name,
     name ≠ DYNAMIC_CACHE ->
     store_named name (networkFirst host request cs).2 = store_named name cs /\
     store_named name (staleWhileRevalidate host request cs).2 = store_named name cs /\
     (forall data,
        store_named name (cacheAttendanceData host data cs).2 = store_named name cs) /\
     store_named name (performCleanup host cs).2 = store_named name cs)
  /\
  (forall later,
     store_named STATIC_CACHE (performCleanup later (cacheFirst host request cs).2).2 =
     store_named STATIC_CACHE (cacheFirst host request cs).2)
  /\
  (forall response later,
     (forall copy, ~ holds_copy cs (cache_key request) copy) ->
     network host request = Some response ->
     ok response = true ->
     put_refused (cache_key request) response = false ->
     contents STATIC_CACHE (performCleanup later (cacheFirst host request cs).2).2
       !! cache_key request = Some response).
Proof.
  assert (STATIC_CACHE ≠ DYNAMIC_CACHE) as Hnames by discriminate.
  split; [|split; [|split]].
  - intros name Hne. rewrite cacheFirst_run.
    destruct (storage_match (cache_key request) cs); [done|].
    destruct (network host request) as [response|]; [|done]. simpl.
    destruct (ok response); [|done]. by apply store_named_after_put_ne.
  - intros name Hne. assert (DYNAMIC_CACHE ≠ name) as Hne' by done.
    repeat split.
    + rewrite networkFirst_run.
      destruct (network host request) as [response|]; simpl.
      * destruct (ok response); [|done]. by apply store_named_after_put_ne.
      * by destruct (storage_match (cache_key request) cs).
    + by apply staleWhileRevalidate_other_stores.
    + intros data. by apply cacheAttendanceData_other_stores.
    + by apply performCleanup_other_stores.
  - intros later. by apply performCleanup_other_stores.
  - intros response later Hnone Hnet Hok Haccepted.
    unfold contents. rewrite performCleanup_other_stores by done.
    rewrite cacheFirst_run. apply storage_match_None in Hnone.
    rewrite Hnone, Hnet, Hok. cbn [snd].
    fold (contents STATIC_CACHE
            (after_put STATIC_CACHE (cache_key request) response cs)).
    by rewrite contents_after_put, Haccepted, lookup_insert_eq.
Qed.

Lemma writes_partitioned_by_strategy_witness :
  contents STATIC_CACHE
    (performCleanup Sample.offline_host
       (cacheFirst (Sample.host_answering (Some Sample.old_script)) Sample.pdf_script []).2).2
    !! cache_key Sample.pdf_script = Some Sample.old_script.
Proof.
  pose proof (writes_partitioned_by_strategy
                (Sample.host_answering (Some Sample.old_script)) Sample.pdf_script [])
    as (_ & _ & _ & Hkept).
  apply Hkept.
  - apply storage_match_None. reflexivity.
  - reflexivity.
  - reflexivity.
  - reflexivity.
Defined.

(** ** Further properties of the worker *)

Section MoreStorageFacts.

Implicit Types (cs : CacheStorage) (c : Cache) (name key : string).

Lemma contents_put_in_lookup name other key key' r cs :
  contents other (put_in name key r cs) !! key' =
  if decide (other = name /\ key' = key) then Some r
  else contents other cs !! key'.
Proof.
  destruct (decide (other = name)) as [->|Hname].
  - rewrite contents_put_in.
    destruct (decide (key' = key)) as [->|Hkey].
    + rewrite lookup_insert_eq. by rewrite decide_True.
    + rewrite lookup_insert_ne by done. rewrite decide_False; [done|tauto].
  - unfold contents at 1. rewrite store_named_put_in_ne by done.
    rewrite decide_False; [done|tauto].
Qed.

Lemma store_named_listed name cs :
  name ∈ storage_keys cs -> is_Some (store_named name cs).
Proof.
  unfold storage_keys. induction cs as [|[n c] rest IH]; simpl.
  - intros Hin. by apply elem_of_nil in Hin.
  - intros Hin. destruct (String.eqb_spec n name) as [->|Hne]; [by eexists|].
    apply elem_of_cons in Hin as [->|Hin]; [done|by apply IH].
Qed.

Lemma store_named_unlisted name cs :
  name ∉ storage_keys cs -> store_named name cs = None.
Proof.
  unfold storage_keys. induction cs as [|[n c] rest IH]; simpl; [done|].
  intros Hout. destruct (String.eqb_spec n name) as [->|Hne].
  - exfalso. apply Hout. by left.
  - apply IH. intros Hin. apply Hout. by right.
Qed.

(** After [put_in name key r], [caches.match(key)] finds [r] as soon as no
    store of another name holds [key]. *)
Lemma storage_match_update name key r cs :
  is_Some (store_named name cs) ->
  (forall other c, (other, c) ∈ cs -> other ≠ name -> c !! key = None) ->
  storage_match key (store_update name (insert key r) cs) = Some r.
Proof.
  induction cs as [|[n c] rest IH]; simpl; intros [c' Hc'] Hothers; [done|].
  destruct (String.eqb_spec n name) as [->|Hne]; simpl.
  - by rewrite lookup_insert_eq.
  - rewrite (Hothers n c) by (done || by left).
    apply IH; [by eexists|]. intros other c0 Hin. apply Hothers. by right.
Qed.

Lemma storage_match_put_in name key r cs :
  (forall other c, (other, c) ∈ cs -> other ≠ name -> c !! key = None) ->
  storage_match key (put_in name key r cs) = Some r.
Proof.
  intros Hothers. unfold put_in. apply storage_match_update.
  - rewrite store_named_open_eq. by eexists.
  - intros other c Hin Hne. unfold storage_open in Hin.
    destruct (store_named name cs); [by apply (Hothers other)|].
    apply elem_of_app in Hin as [Hin|Hin]; [by apply (Hothers other)|].
    apply list_elem_of_singleton in Hin. congruence.
Qed.

Lemma no_copy_elsewhere name key cs :
  (forall copy, ~ holds_copy cs key copy) ->
  forall other c, (other, c) ∈ cs -> other ≠ name -> c !! key = None.
Proof.
  intros Hnone other c Hin _. destruct (c !! key) as [r|] eqn:Hr; [|done].
  exfalso. apply (Hnone r). by exists other, c.
Qed.

End MoreStorageFacts.

(** X1.  For a GET request the fetch listener always calls [respondWith],
    and the promise it passes never rejects.  What the promise resolves to
    is [null] in one case only: the request went to stale-while-revalidate,
    the dynamic store holds no copy of it and the fetch failed. *)
Theorem onFetch_GET_answer (host : Host) (request : Request) (cs : CacheStorage) :
  method request = "GET" ->
  exists strategy value after,
    route host request = Some strategy /\
    onFetch host request cs = (Some (Normal value), after) /\
    (value = None <->
     strategy = StaleWhileRevalidate /\
     contents DYNAMIC_CACHE cs !! cache_key request = None /\
     network host request = None).
Proof.
  intros Hmethod.
  assert (exists strategy, route host request = Some strategy) as [strategy Hroute].
  { unfold route. rewrite Hmethod. simpl.
    repeat match goal with |- context [if ?b then _ else _] => destruct b end;
      by eexists. }
  exists strategy. unfold onFetch. rewrite Hroute.
  destruct strategy; simpl; unfold bind.
  - rewrite cacheFirst_run.
    destruct (storage_match (cache_key request) cs);
      [|destruct (network host request)];
      eexists _, _; (split; [done|split; [done|]]); split; (done || by intros [? _]).
  - rewrite networkFirst_run.
    destruct (network host request);
      [|destruct (storage_match (cache_key request) cs)];
      eexists _, _; (split; [done|split; [done|]]); split; (done || by intros [? _]).
  - rewrite staleWhileRevalidate_run. simpl.
    destruct (network host request) as [response|];
      destruct (contents DYNAMIC_CACHE cs !! cache_key request) as [stored|];
      eexists _, _; (split; [done|split; [done|]]); simpl;
      split; (done || by intros (_ & ? & ?)).
Qed.

Lemma onFetch_GET_answer_witness :
  exists strategy value after,
    route Sample.offline_host Sample.chart_script = Some strategy /\
    onFetch Sample.offline_host Sample.chart_script [] = (Some (Normal value), after) /\
    (value = None <->
     strategy = StaleWhileRevalidate /\
     contents DYNAMIC_CACHE [] !! cache_key Sample.chart_script = None /\
     network Sample.offline_host Sample.chart_script = None).
Proof.
  apply (onFetch_GET_answer Sample.offline_host Sample.chart_script []).
  reflexivity.
Defined.

(** X2.  The browser hands the listener absolute URLs and paths that start
    with a slash, so of [CORE_FILES] only the two CDN scripts can match: a
    GET request is handled cache-first when it is for one of them, and
    otherwise by its origin alone.  In particular every other request to
    the worker's own origin, the precached page included, is handled
    network-first. *)
Theorem route_of_parsed_request (host : Host) (request : Request) :
  method request = "GET" ->
  String.prefix "/" (url_pathname request) = true ->
  String.prefix "." (url request) = false ->
  route host request =
    Some (if includes core_scripts (url request) then CacheFirst
          else if String.eqb (url_origin request) "https://cdnjs.cloudflare.com"
          then StaleWhileRevalidate
          else if String.eqb (url_origin request) (location_origin host)
          then NetworkFirst
          else CacheFirst)
  /\
  (includes core_scripts (url request) = false ->
   url_origin request = location_origin host ->
   location_origin host ≠ "https://cdnjs.cloudflare.com" ->
   route host request = Some NetworkFirst).
Proof.
  intros Hmethod Hpath Hurl.
  assert (includes CORE_FILES (url_pathname request) = false) as Hno_path.
  { unfold includes, CORE_FILES. simpl.
    repeat match goal with
    | |- context [String.eqb (url_pathname request) ?entry] =>
        destruct (String.eqb_spec (url_pathname request) entry) as [Heq|_];
        [rewrite Heq in Hpath; discriminate Hpath|]
    end.
    done. }
  assert (includes CORE_FILES (url request) = includes core_scripts (url request))
    as Hno_relative.
  { unfold includes, core_scripts, CORE_FILES. simpl.
    repeat match goal with
    | |- context [String.eqb (url request) ?entry] =>
        destruct (String.eqb_spec (url request) entry) as [Heq|_];
        [rewrite Heq in Hurl; discriminate Hurl|]
    end.
    done. }
  assert (route host request =
    Some (if includes core_scripts (url request) then CacheFirst
          else if String.eqb (url_origin request) "https://cdnjs.cloudflare.com"
          then StaleWhileRevalidate
          else if String.eqb (url_origin request) (location_origin host)
          then NetworkFirst
          else CacheFirst)) as Hroute.
  { unfold route.
    rewrite Hmethod, String.eqb_refl, Hno_path, Hno_relative, orb_false_r.
    cbn [negb].
    destruct (includes core_scripts (url request)); [done|].
    destruct (String.eqb (url_origin request) "https://cdnjs.cloudflare.com"); [done|].
    by destruct (String.eqb (url_origin request) (location_origin host)). }
  split; [done|].
  intros Hother Horigin Hcdn. rewrite Hroute, Hother, Horigin.
  destruct (String.eqb_spec (location_origin host) "https://cdnjs.cloudflare.com");
    [done|].
  by rewrite String.eqb_refl.
Qed.

Lemma route_of_parsed_request_witness :
  route Sample.offline_host
    {| url := "https://attendance.example/index.html";
       url_origin := "https://attendance.example";
       url_pathname := "/index.html";
       method := "GET";
       mode := "navigate" |} = Some NetworkFirst.
Proof.
  apply (route_of_parsed_request Sample.offline_host); try reflexivity.
  discriminate.
Defined.

(** X3.  A strategy changes nothing but the entry the request is filed
    under, which is its URL without the fragment: in every store, every
    entry under another key is after the call what it was before, and an
    entry under the request's key is still there, as it was or replaced. *)
Theorem strategies_touch_only_request_key (host : Host) (s : Strategy)
    (request : Request) (cs : CacheStorage) (name key : string) :
  (key ≠ cache_key request ->
   contents name (strategy_run host s request cs).2 !! key = contents name cs !! key)
  /\
  (is_Some (contents name cs !! cache_key request) ->
   is_Some (contents name (strategy_run host s request cs).2 !! cache_key request)).
Proof.
  assert (forall other response,
    (key ≠ cache_key request ->
     contents name (after_put other (cache_key request) response cs) !! key
     = contents name cs !! key) /\
    (is_Some (contents name cs !! cache_key request) ->
     is_Some (contents name (after_put other (cache_key request) response cs)
                !! cache_key request)))
    as Hput.
  { intros other response. split.
    - intros Hkey. apply contents_after_put_other. by right.
    - intros Hsome. destruct (decide (name = other)) as [->|Hname].
      + rewrite contents_after_put.
        destruct (put_refused (cache_key request) response); [done|].
        by rewrite lookup_insert_eq.
      + rewrite contents_after_put_other; [done|by left]. }
  destruct s; simpl; unfold bind.
  - rewrite cacheFirst_run.
    destruct (storage_match (cache_key request) cs); [done|].
    destruct (network host request) as [response|]; [|done].
    destruct (ok response); [apply Hput|done].
  - rewrite networkFirst_run.
    destruct (network host request) as [response|].
    + destruct (ok response); [apply Hput|done].
    + by destruct (storage_match (cache_key request) cs).
  - rewrite staleWhileRevalidate_run. simpl.
    destruct (network host request) as [response|]; simpl.
    + destruct (ok response); [apply Hput|]. by rewrite contents_open.
    + by rewrite contents_open.
Qed.

(** The storage after cache-first has been called for [request] once under
    each of [hosts], in turn. *)
Lemma cacheFirst_settled (request : Request) (cs : CacheStorage) (response : Response)
    (hosts : list Host) :
  storage_match (cache_key request) cs = Some response ->
  foldl (fun cs' host => (cacheFirst host request cs').2) cs hosts = cs.
Proof.
  intros Hmatch. induction hosts as [|host hosts IH]; simpl; [done|].
  by rewrite cacheFirst_run, Hmatch.
Qed.

(** X4.  Cache-first does not refresh: once it has fetched an [ok] response
    for a request no store held, and the store has accepted it, the
    cache-first calls for that request that follow, however many and
    whatever the network answers by then, all return that same response
    and leave the storage as the first call left it.  (Nothing else is
    taken to change the storage in between.) *)
Theorem cacheFirst_pins_first_response (first : Host) (later : list Host) (last : Host)
    (request : Request) (cs : CacheStorage) (response : Response) :
  (forall copy, ~ holds_copy cs (cache_key request) copy) ->
  network first request = Some response ->
  ok response = true ->
  put_refused (cache_key request) response = false ->
  cacheFirst last request
    (foldl (fun cs' host => (cacheFirst host request cs').2)
       (cacheFirst first request cs).2 later)
  = (Normal response, (cacheFirst first request cs).2).
Proof.
  intros Hnone Hnet Hok Haccepted.
  pose proof (no_copy_elsewhere STATIC_CACHE _ _ Hnone) as Hothers.
  assert (storage_match (cache_key request) (cacheFirst first request cs).2
          = Some response) as Hpinned.
  { apply storage_match_None in Hnone.
    rewrite cacheFirst_run, Hnone, Hnet, Hok. cbn [snd].
    rewrite after_put_accepted by done. by apply storage_match_put_in. }
  rewrite (cacheFirst_settled _ _ response) by done.
  by rewrite cacheFirst_run, Hpinned.
Qed.

Lemma cacheFirst_pins_first_response_witness :
  cacheFirst (Sample.host_answering (Some Sample.not_found)) Sample.pdf_script
    (foldl (fun cs' host => (cacheFirst host Sample.pdf_script cs').2)
       (cacheFirst (Sample.host_answering (Some Sample.script)) Sample.pdf_script []).2
       [Sample.offline_host; Sample.host_answering (Some Sample.old_script)])
  = (Normal Sample.script,
     (cacheFirst (Sample.host_answering (Some Sample.script)) Sample.pdf_script []).2).
Proof.
  apply cacheFirst_pins_first_response.
  - apply storage_match_None. reflexivity.
  - reflexivity.
  - reflexivity.
  - reflexivity.
Defined.



(** X6.  A revalidation shows on the next request: after
    stale-while-revalidate has fetched an [ok] response that the store
    accepted, the next call for the same request answers with that
    response at once, whatever the dynamic store held before and whatever
    the network answers then. *)
Theorem staleWhileRevalidate_next_request (first later : Host) (request : Request)
    (cs : CacheStorage) (response : Response) :
  network first request = Some response ->
  ok response = true ->
  put_refused (cache_key request) response = false ->
  (staleWhileRevalidate later request (staleWhileRevalidate first request cs).2).1
  = Normal (Ready response).
Proof.
  intros Hnet Hok Haccepted.
  rewrite (staleWhileRevalidate_run first), Hnet, Hok. cbn [snd].
  rewrite staleWhileRevalidate_run. simpl.
  rewrite contents_after_put, Haccepted, lookup_insert_eq.
  by destruct (network later request).
Qed.

Lemma staleWhileRevalidate_next_request_witness :
  (staleWhileRevalidate Sample.offline_host Sample.chart_script
     (staleWhileRevalidate (Sample.host_answering (Some Sample.script)) Sample.chart_script
        [(DYNAMIC_CACHE, {[ cache_key Sample.chart_script := Sample.old_script ]})]).2).1
  = Normal (Ready Sample.script).
Proof.
  apply staleWhileRevalidate_next_request; reflexivity.
Defined.

(** X7.  The attendance backup is filed in the dynamic store under the URL
    [attendance-data-backup] resolves to, and [cacheAttendanceData] never
    fails.  Where that URL is an http(s) one: data that serializes leaves
    there a response of status 200 whose body is the text, replacing what
    was there (an earlier backup, or a response network-first stored for
    the same URL); the other entries of the store stay as they were; and
    no cleanup, whenever it runs, removes the backup.  Data for which
    [JSON.stringify] gives [undefined] leaves a response without a body
    there, and data it throws on changes no entry. *)
Theorem cacheAttendanceData_backup (host : Host) (cs : CacheStorage) :
  http_scheme (backup_url host) = true ->
  (forall data, (cacheAttendanceData host data cs).1 = Normal tt)
  /\
  (forall text,
     contents DYNAMIC_CACHE (cacheAttendanceData host (Serializable text) cs).2
     = <[backup_url host := backup_response (Payload text)]> (contents DYNAMIC_CACHE cs))
  /\
  (forall text earlier,
     contents DYNAMIC_CACHE
       (cacheAttendanceData host (Serializable text)
          (cacheAttendanceData host earlier cs).2).2
     = contents DYNAMIC_CACHE (cacheAttendanceData host (Serializable text) cs).2)
  /\
  (forall text later,
     contents DYNAMIC_CACHE
       (performCleanup later (cacheAttendanceData host (Serializable text) cs).2).2
       !! backup_url host = Some (backup_response (Payload text)))
  /\
  contents DYNAMIC_CACHE (cacheAttendanceData host Unserialized cs).2
  = <[backup_url host := backup_response NoBody]> (contents DYNAMIC_CACHE cs)
  /\
  (forall name, contents name (cacheAttendanceData host Unserializable cs).2
                = contents name cs).
Proof.
  intros Hscheme.
  assert (forall content,
    put_refused (backup_url host) (backup_response content) = false) as Haccepted.
  { intros content. unfold put_refused. by rewrite Hscheme. }
  split; [|split; [|split; [|split; [|split]]]].
  - intros data. by rewrite cacheAttendanceData_run.
  - intros text. rewrite cacheAttendanceData_run. cbn [snd].
    by rewrite contents_after_put, Haccepted.
  - intros text earlier. rewrite !(cacheAttendanceData_run host (Serializable text)).
    cbn [snd]. rewrite !contents_after_put, !Haccepted.
    rewrite cacheAttendanceData_run. cbn [snd].
    destruct earlier; rewrite ?contents_after_put, ?Haccepted, ?contents_open;
      by rewrite ?insert_insert_eq.
  - intros text later. rewrite performCleanup_lookup, cacheAttendanceData_run.
    cbn [snd]. by rewrite contents_after_put, Haccepted, lookup_insert_eq.
  - rewrite cacheAttendanceData_run. cbn [snd].
    by rewrite contents_after_put, Haccepted.
  - intros name. rewrite cacheAttendanceData_run. cbn [snd]. apply contents_open.
Qed.

Lemma cacheAttendanceData_backup_witness :
  contents DYNAMIC_CACHE
    (performCleanup Sample.offline_host
       (cacheAttendanceData Sample.offline_host (Serializable "[]") []).2).2
    !! backup_url Sample.offline_host = Some (backup_response (Payload "[]")).
Proof.
  pose proof (cacheAttendanceData_backup Sample.offline_host [] eq_refl)
    as (_ & _ & _ & Hkept & _).
  apply Hkept.
Defined.

(** ** The status report *)

Section StatusFacts.

Context (host : Host) (error_message : JsError -> string).
Implicit Types (cs : CacheStorage) (status : gmap string StatusValue).

(** The object after the loop of [getCacheStatus] over [names]. *)
Lemma status_loop (names : list string) :
  forall cs status,
    (forall name, name ∈ names -> is_Some (store_named name cs)) ->
    for_of_with names status (fun status cacheName =>
      await cache <- caches_open cacheName;
      await keys <- cache_keys cache;
      ret (set_property status cacheName (Count (length keys)))) cs
    = (Normal (foldl (fun status name =>
                 set_property status name (Count (size (contents name cs))))
               status names), cs).
Proof.
  induction names as [|name names IH]; intros cs status Hstores; simpl; [done|].
  destruct (Hstores name) as [c Hc]; [by left|].
  unfold bind at 1. unfold bind at 1, caches_open.
  rewrite (storage_open_present name c) by done.
  unfold bind at 1, cache_keys, ret.
  assert (length (store_keys (contents name cs)) = size (contents name cs)) as ->.
  { unfold store_keys. by rewrite length_fmap, length_map_to_list. }
  apply IH. intros other Hin. apply Hstores. by right.
Qed.

Lemma status_fold_lookup cs (names : list string) :
  forall status key,
    foldl (fun status name =>
             set_property status name (Count (size (contents name cs))))
      status names !! key
    = if decide (key ∈ names /\ key ≠ "__proto__")
      then Some (Count (size (contents key cs)))
      else status !! key.
Proof.
  induction names as [|name names IH]; intros status key; simpl.
  - destruct (decide (key ∈ [] /\ key ≠ "__proto__")) as [[Hin _]|_]; [|done].
    by apply elem_of_nil in Hin.
  - rewrite IH. destruct (decide (key ∈ names /\ key ≠ "__proto__")) as [[Hin Hk]|Hno].
    + rewrite decide_True; [done|]. split; [by right|done].
    + unfold set_property.
      destruct (String.eqb_spec name "__proto__") as [->|Hname].
      * rewrite decide_False; [done|]. rewrite elem_of_cons. intuition congruence.
      * destruct (decide (key = name)) as [->|Hkey].
        -- rewrite lookup_insert_eq. rewrite decide_True; [done|].
           split; [by left|done].
        -- rewrite lookup_insert_ne by done. rewrite decide_False; [done|].
           rewrite elem_of_cons. intuition congruence.
Qed.

Lemma getCacheStatus_run cs :
  getCacheStatus host error_message cs =
  (Normal (foldl (fun status name =>
             set_property status name (Count (size (contents name cs))))
           {[ "caches" := Names (storage_keys cs);
              "timestamp" := Text (toISOString host (Date_now host));
              "version" := Text "v2.0.0" ]}
           (storage_keys cs)), cs).
Proof.
  unfold getCacheStatus, try_catch, bind, caches_keys.
  rewrite status_loop; [done|]. intros name Hin. by apply store_named_listed.
Qed.

Lemma type_is_spec (type : option string) (name : string) :
  type_is type name = true <-> type = Some name.
Proof.
  destruct type as [text|]; simpl; [|done].
  destruct (String.eqb_spec text name); split; congruence.
Qed.

Lemma onMessage_run (event : MessageEvent) cs :
  onMessage host error_message event cs =
  match event_data event with
  | None => (Thrown TypeError, cs)
  | Some (type, data) =>
      if type_is type "SKIP_WAITING" then (Normal None, cs)
      else if type_is type "CACHE_ATTENDANCE_DATA"
      then (Normal None, (cacheAttendanceData host data cs).2)
      else if type_is type "GET_CACHE_STATUS"
      then (if has_port event
            then Normal (Some (status_report host cs))
            else Thrown TypeError, cs)
      else (Normal None, cs)
  end.
Proof.
  unfold onMessage. destruct (event_data event) as [[type data]|]; [|done].
  destruct (type_is type "SKIP_WAITING"); [done|].
  destruct (type_is type "CACHE_ATTENDANCE_DATA"); [done|].
  destruct (type_is type "GET_CACHE_STATUS"); [|done].
  unfold bind. rewrite getCacheStatus_run. by destruct (has_port event).
Qed.

End StatusFacts.

(** X8.  [getCacheStatus] never fails and changes nothing in the storage.
    The object it returns gives, under the name of every store (other than
    [__proto__]), the number of entries of that store, also when the store
    is named [caches], [timestamp] or [version]; under a name that is no
    store's it has what the object started with: the list of store names
    under [caches], the version under [version], and nothing else but the
    timestamp. *)
Theorem getCacheStatus_counts (host : Host) (error_message : JsError -> string)
    (cs : CacheStorage) :
  exists status,
    getCacheStatus host error_message cs = (Normal status, cs) /\
    (forall name,
       name ∈ storage_keys cs -> name ≠ "__proto__" ->
       status !! name = Some (Count (size (contents name cs)))) /\
    (forall name,
       name ∉ storage_keys cs ->
       status !! name =
       if String.eqb name "caches" then Some (Names (storage_keys cs))
       else if String.eqb name "timestamp"
       then Some (Text (toISOString host (Date_now host)))
       else if String.eqb name "version" then Some (Text "v2.0.0")
       else None).
Proof.
  eexists. split; [|split].
  - apply getCacheStatus_run.
  - intros name Hin Hproto. rewrite status_fold_lookup.
    rewrite decide_True; [done|]. by split.
  - intros name Hout. rewrite status_fold_lookup.
    rewrite decide_False by (by intros [? _]).
    destruct (String.eqb_spec name "caches") as [->|Hcaches];
      [by rewrite lookup_insert_eq|].
    rewrite lookup_insert_ne by done.
    destruct (String.eqb_spec name "timestamp") as [->|Htime];
      [by rewrite lookup_insert_eq|].
    rewrite lookup_insert_ne by done.
    destruct (String.eqb_spec name "version") as [->|Hversion];
      [by rewrite lookup_singleton_eq|].
    by rewrite lookup_singleton_ne.
Qed.

(** X9.  Of the messages the page can send, only [CACHE_ATTENDANCE_DATA]
    changes the storage, and it changes it as [cacheAttendanceData] does;
    a status is posted for [GET_CACHE_STATUS] with a port, and for nothing
    else.  A failure escapes the handler in two cases and no other: the
    [data] of the event is [null] or [undefined], or [GET_CACHE_STATUS]
    comes without a port. *)
Theorem onMessage_effects (host : Host) (error_message : JsError -> string)
    (event : MessageEvent) (cs : CacheStorage) :
  (forall data,
     event_data event = Some (Some "CACHE_ATTENDANCE_DATA", data) ->
     onMessage host error_message event cs
     = (Normal None, (cacheAttendanceData host data cs).2))
  /\
  ((forall data, event_data event ≠ Some (Some "CACHE_ATTENDANCE_DATA", data)) ->
   (onMessage host error_message event cs).2 = cs)
  /\
  ((exists status, (onMessage host error_message event cs).1 = Normal (Some status)) <->
   (exists data, event_data event = Some (Some "GET_CACHE_STATUS", data)) /\
   has_port event = true)
  /\
  ((exists error, (onMessage host error_message event cs).1 = Thrown error) <->
   event_data event = None \/
   ((exists data, event_data event = Some (Some "GET_CACHE_STATUS", data)) /\
    has_port event = false)).
Proof.
  split; [|split; [|split]].
  - intros data Hevent. by rewrite onMessage_run, Hevent.
  - intros Hother. rewrite onMessage_run.
    destruct (event_data event) as [[type data]|]; [|done].
    destruct (type_is type "SKIP_WAITING"); [done|].
    destruct (type_is type "CACHE_ATTENDANCE_DATA") eqn:Hcache.
    + apply type_is_spec in Hcache as ->. by destruct (Hother data).
    + by destruct (type_is type "GET_CACHE_STATUS").
  - split.
    + intros [status Hreply]. rewrite onMessage_run in Hreply.
      destruct (event_data event) as [[type data]|]; [|done].
      destruct (type_is type "SKIP_WAITING"); [done|].
      destruct (type_is type "CACHE_ATTENDANCE_DATA"); [done|].
      destruct (type_is type "GET_CACHE_STATUS") eqn:Hstatus; [|done].
      apply type_is_spec in Hstatus as ->.
      destruct (has_port event); [|done]. split; [by eexists|done].
    + intros [[data Hevent] Hport]. rewrite onMessage_run, Hevent, Hport.
      by eexists.
  - split.
    + intros [error Hthrown]. rewrite onMessage_run in Hthrown.
      destruct (event_data event) as [[type data]|]; [|by left].
      destruct (type_is type "SKIP_WAITING"); [done|].
      destruct (type_is type "CACHE_ATTENDANCE_DATA"); [done|].
      destruct (type_is type "GET_CACHE_STATUS") eqn:Hstatus; [|done].
      apply type_is_spec in Hstatus as ->.
      destruct (has_port event); [done|]. right. split; [by eexists|done].
    + intros [Hevent|[[data Hevent] Hport]]; rewrite onMessage_run, Hevent, ?Hport;
        by eexists.
Qed.

(** ** Cleanup and activation, run again *)

Lemma sweep_all_lookup (host : Host) (c : Cache) (key : string) :
  sweep host c (store_keys c) !! key =
  match c !! key with
  | Some r => if expired host r then None else Some r
  | None => None
  end.
Proof.
  rewrite sweep_lookup by apply NoDup_fst_map_to_list.
  destruct (c !! key) as [r|] eqn:Hr; [|done].
  rewrite decide_True; [done|].
  apply list_elem_of_fmap. exists (key, r). split; [done|].
  by apply elem_of_map_to_list.
Qed.

Lemma sweep_all_again (host : Host) (c : Cache) :
  sweep host (sweep host c (store_keys c)) (store_keys (sweep host c (store_keys c)))
  = sweep host c (store_keys c).
Proof.
  apply map_eq. intros key. rewrite !sweep_all_lookup.
  destruct (c !! key) as [r|]; [|done].
  destruct (expired host r) eqn:Hr; [done|]. by rewrite Hr.
Qed.

(** X10.  A second cleanup at the same time finds nothing left to do: it
    completes and the whole storage is what the first one left. *)
Theorem performCleanup_idempotent (host : Host) (cs : CacheStorage) :
  performCleanup host (performCleanup host cs).2 =
  (Normal tt, (performCleanup host cs).2).
Proof.
  rewrite (performCleanup_run host cs). cbn [snd].
  set (kept := sweep host (contents DYNAMIC_CACHE cs)
                 (store_keys (contents DYNAMIC_CACHE cs))).
  set (cs1 := store_update DYNAMIC_CACHE (fun _ => kept)
                (storage_open DYNAMIC_CACHE cs)).
  assert (store_named DYNAMIC_CACHE cs1 = Some kept) as Hkept.
  { unfold cs1. by rewrite store_named_update_eq, store_named_open_eq. }
  rewrite performCleanup_run. f_equal.
  rewrite (storage_open_present _ kept) by done.
  unfold contents. rewrite Hkept. simpl. unfold kept at 1 2.
  rewrite sweep_all_again. by apply store_update_const_id.
Qed.

(** X11.  An entry whose [date] header is empty, or is no date the host can
    read, is never removed by the cleanup. *)
Theorem performCleanup_keeps_unreadable_dates (host : Host) (cs : CacheStorage)
    (key : string) (r : Response) (dateHeader : string) :
  contents DYNAMIC_CACHE cs !! key = Some r ->
  headers_get "date" (headers r) = Some dateHeader ->
  dateHeader = "" \/ Date_getTime host dateHeader = None ->
  contents DYNAMIC_CACHE (performCleanup host cs).2 !! key = Some r.
Proof.
  intros Hr Hdate Hunreadable. rewrite performCleanup_lookup, Hr.
  unfold expired, stored_timestamp. rewrite Hdate.
  destruct Hunreadable as [->|Hnan]; [done|].
  rewrite Hnan. by destruct (truthy dateHeader).
Qed.

Lemma performCleanup_keeps_unreadable_dates_witness :
  let undated : Response :=
    {| status := 200; statusText := "OK";
       headers := [("date", "yesterday")]; body := Payload "{}" |} in
  contents DYNAMIC_CACHE
    (performCleanup Sample.offline_host
       [(DYNAMIC_CACHE, {[ "https://attendance.example/api" := undated ]})]).2
    !! "https://attendance.example/api" = Some undated.
Proof.
  intros undated.
  apply (performCleanup_keeps_unreadable_dates Sample.offline_host _ _ undated "yesterday").
  - reflexivity.
  - reflexivity.
  - right. reflexivity.
Defined.

(** X12.  The age the cleanup looks at is that of the response's [date]
    header, not the time the entry was stored: an [ok] response that
    network-first has just fetched and the store has accepted is removed
    by a cleanup at that very time when its header is more than thirty
    days old. *)
Theorem performCleanup_removes_just_stored (host : Host) (request : Request)
    (cs : CacheStorage) (response : Response) (t : Z) :
  network host request = Some response ->
  ok response = true ->
  put_refused (cache_key request) response = false ->
  stored_timestamp host response = Some t ->
  THIRTY_DAYS < age host t ->
  contents DYNAMIC_CACHE (networkFirst host request cs).2 !! cache_key request
    = Some response
  /\
  contents DYNAMIC_CACHE (performCleanup host (networkFirst host request cs).2).2
    !! cache_key request = None.
Proof.
  intros Hnet Hok Haccepted Ht Hold.
  rewrite performCleanup_lookup, networkFirst_run, Hnet, Hok. cbn [snd].
  rewrite contents_after_put, Haccepted, lookup_insert_eq. split; [done|].
  unfold expired. rewrite Ht.
  destruct (Z.ltb_spec THIRTY_DAYS (age host t)); [done|lia].
Qed.

Lemma performCleanup_removes_just_stored_witness :
  contents DYNAMIC_CACHE
    (performCleanup (Sample.host_answering (Some Sample.old_script))
       (networkFirst (Sample.host_answering (Some Sample.old_script))
          Sample.report_navigation []).2).2
    !! cache_key Sample.report_navigation = None.
Proof.
  apply (performCleanup_removes_just_stored
           (Sample.host_answering (Some Sample.old_script)) Sample.report_navigation []
           Sample.old_script 1704067200000); reflexivity.
Defined.

(** X13.  Activation is idempotent, and after it [caches.match] can only
    find what a store of a current name held before: no response of a
    stale store is served any more. *)
Theorem onActivate_idempotent (cs : CacheStorage) :
  onActivate (onActivate cs).2 = (Normal tt, (onActivate cs).2)
  /\
  (forall key r,
     storage_match key (onActivate cs).2 = Some r ->
     exists name c, (name, c) ∈ cs /\ ~ stale name /\ c !! key = Some r).
Proof.
  rewrite (onActivate_run cs). cbn [snd]. split.
  - rewrite onActivate_run. f_equal. rewrite list_filter_filter.
    apply list_filter_iff. tauto.
  - intros key r Hmatch.
    apply storage_match_holds in Hmatch as (name & c & Hin & Hc).
    apply list_elem_of_filter in Hin as [Hcurrent Hin]. by exists name, c.
Qed.

(** ** Notification clicks *)

Lemma urlToOpen_relative (action : string) :
  String.prefix "./" (urlToOpen action) = true.
Proof. unfold urlToOpen. by destruct (truthy action). Qed.

(** X14.  The click handler compares each client's URL with the relative
    [urlToOpen]; the URL of a client never starts with [./], so no
    existing window is ever focused: a window is opened at [urlToOpen]
    when [clients.openWindow] exists, and nothing is done otherwise. *)
Theorem onNotificationClick_never_focuses (action : string) (clients : list Client)
    (openWindow : bool) :
  (forall client, client ∈ clients -> String.prefix "./" (client_url client) = false) ->
  onNotificationClick action clients openWindow =
  if openWindow then Opened (urlToOpen action) else NothingDone.
Proof.
  unfold onNotificationClick. pose proof (urlToOpen_relative action) as Hrelative.
  induction clients as [|client rest IH]; intros Habsolute; simpl; [done|].
  destruct (String.eqb_spec (client_url client) (urlToOpen action)) as [Heq|_].
  - rewrite <- Heq, Habsolute in Hrelative by (by left). discriminate Hrelative.
  - simpl. apply IH. intros other Hin. apply Habsolute. by right.
Qed.

Lemma onNotificationClick_never_focuses_witness :
  onNotificationClick "checkin"
    [ {| client_url := "https://attendance.example/index.html?action=checkin";
         has_focus := true |} ] true
  = Opened "./index.html?action=checkin".
Proof.
  apply (onNotificationClick_never_focuses "checkin"
           [ {| client_url := "https://attendance.example/index.html?action=checkin";
                has_focus := true |} ] true).
  intros client Hin. apply list_elem_of_singleton in Hin. by rewrite Hin.
Defined.

(** ** The store names over a run of events *)

Section NamesFacts.

Implicit Types (cs : CacheStorage) (name : string).

Lemma storage_keys_update name f cs :
  storage_keys (store_update name f cs) = storage_keys cs.
Proof.
  unfold storage_keys. induction cs as [|[n c] rest IH]; [done|].
  cbn [store_update]. destruct (String.eqb n name); rewrite !fmap_cons; [done|].
  by rewrite IH.
Qed.

Lemma only_current_open name cs :
  ~ stale name -> only_current cs -> only_current (storage_open name cs).
Proof.
  intros Hname Hcs other. unfold storage_open, storage_keys.
  destruct (store_named name cs); [apply Hcs|].
  rewrite fmap_app, elem_of_app. intros [Hin|Hin]; [by apply Hcs|].
  apply list_elem_of_singleton in Hin. by rewrite Hin.
Qed.

Lemma only_current_put_in name key r cs :
  ~ stale name -> only_current cs -> only_current (put_in name key r cs).
Proof.
  intros Hname Hcs other. unfold put_in. rewrite storage_keys_update.
  by apply only_current_open.
Qed.

Lemma only_current_after_put name key r cs :
  ~ stale name -> only_current cs -> only_current (after_put name key r cs).
Proof.
  intros Hname Hcs. unfold after_put. destruct (put_refused key r).
  - by apply only_current_open.
  - by apply only_current_put_in.
Qed.

Lemma static_current : ~ stale STATIC_CACHE.
Proof. by intros [? _]. Qed.

Lemma dynamic_current : ~ stale DYNAMIC_CACHE.
Proof. by intros [_ ?]. Qed.

Lemma only_current_handle error_message event cs :
  only_current cs -> only_current (handle error_message cs event).
Proof.
  intros Hcs.
  pose proof static_current. pose proof dynamic_current.
  destruct event as [|host request|host event|host tag]; simpl.
  - rewrite onActivate_run. intros name Hin.
    apply list_elem_of_fmap in Hin as [[n c] [-> Hin]].
    by apply list_elem_of_filter in Hin as [? _].
  - unfold onFetch. destruct (route host request) as [[| |]|]; simpl; [| | |done];
      unfold bind.
    + rewrite cacheFirst_run.
      destruct (storage_match (cache_key request) cs); [done|].
      destruct (network host request) as [response|]; [|done].
      destruct (ok response); [by apply only_current_after_put|done].
    + rewrite networkFirst_run.
      destruct (network host request) as [response|].
      * destruct (ok response); [by apply only_current_after_put|done].
      * by destruct (storage_match (cache_key request) cs).
    + rewrite staleWhileRevalidate_run. simpl.
      destruct (network host request) as [response|]; simpl.
      * destruct (ok response);
          [by apply only_current_after_put|by apply only_current_open].
      * by apply only_current_open.
  - rewrite onMessage_run.
    destruct (event_data event) as [[type data]|]; [|done].
    destruct (type_is type "SKIP_WAITING"); [done|].
    destruct (type_is type "CACHE_ATTENDANCE_DATA").
    { cbn [snd]. rewrite cacheAttendanceData_run. cbn [snd].
      destruct data;
        (by apply only_current_after_put) || by apply only_current_open. }
    by destruct (type_is type "GET_CACHE_STATUS").
  - unfold onPeriodicSync. destruct (String.eqb tag "cleanup"); [|done].
    rewrite performCleanup_run. cbn [snd]. intros name.
    rewrite storage_keys_update. by apply only_current_open.
Qed.

End NamesFacts.

(** X15.  Once the worker has activated, the stores are the static and the
    dynamic one at most, and they stay so: whatever requests, messages,
    periodic syncs and further activations follow, under whatever network,
    no store of another name is ever in the storage. *)
Theorem stale_stores_never_return (error_message : JsError -> string)
    (events : list Event) (cs : CacheStorage) :
  only_current (foldl (handle error_message) (handle error_message cs Activate) events).
Proof.
  assert (only_current (handle error_message cs Activate)) as Hstart.
  { simpl. rewrite onActivate_run. intros name Hin.
    apply list_elem_of_fmap in Hin as [[n c] [-> Hin]].
    by apply list_elem_of_filter in Hin as [? _]. }
  revert Hstart. generalize (handle error_message cs Activate).
  induction events as [|event events IH]; intros cs' Hcs'; simpl; [done|].
  by apply IH, only_current_handle.
Qed.

(** X16.  [caches.match] goes through the stores in creation order, and
    network-first stores in the dynamic store: when the first store is
    another one and holds a copy of the request, the copy served offline
    is that one, not the response network-first fetched and stored last
    time. *)
Theorem networkFirst_offline_prefers_first_store (online offline : Host)
    (request : Request) (name : string) (c : Cache) (rest : CacheStorage)
    (old : Response) :
  name ≠ DYNAMIC_CACHE ->
  c !! cache_key request = Some old ->
  network offline request = None ->
  (networkFirst offline request
     (networkFirst online request ((name, c) :: rest)).2).1 = Normal old.
Proof.
  intros Hname Hold Hdown.
  assert (forall response,
    after_put DYNAMIC_CACHE (cache_key request) response ((name, c) :: rest)
    = (name, c) :: after_put DYNAMIC_CACHE (cache_key request) response rest) as Hput.
  { intros response. unfold after_put, put_in, storage_open. simpl.
    destruct (String.eqb_spec name DYNAMIC_CACHE) as [|_]; [done|].
    destruct (put_refused (cache_key request) response);
      destruct (store_named DYNAMIC_CACHE rest); simpl;
      by destruct (String.eqb_spec name DYNAMIC_CACHE). }
  rewrite (networkFirst_run online).
  destruct (network online request) as [response|]; cbn [snd].
  - destruct (ok response).
    + rewrite Hput, networkFirst_run, Hdown. simpl. by rewrite Hold.
    + rewrite networkFirst_run, Hdown. simpl. by rewrite Hold.
  - destruct (storage_match (cache_key request) ((name, c) :: rest)); cbn [snd];
      rewrite networkFirst_run, Hdown; simpl; by rewrite Hold.
Qed.

Lemma networkFirst_offline_prefers_first_store_witness :
  (networkFirst Sample.offline_host Sample.chart_script
     (networkFirst (Sample.host_answering (Some Sample.script)) Sample.chart_script
        [(STATIC_CACHE, {[ cache_key Sample.chart_script := Sample.old_script ]})]).2).1
  = Normal Sample.old_script.
Proof.
  apply networkFirst_offline_prefers_first_store; (reflexivity || discriminate).
Defined.
